(* ===================================================================== *)
(* flagit: quality flags for hourly in-situ soil-moisture observations   *)
(* A shallow embedding of flagit/flagit.py and its properties.           *)
(* ===================================================================== *)

From Stdlib Require Import ZArith Floats Uint63 Lia Permutation.
From stdpp Require Import gmap strings list fin_maps.

Local Open Scope Z_scope.
#[local] Set Warnings "-inexact-float".

(* ===================================================================== *)
(* 1. Numbers                                                            *)
(* ===================================================================== *)

(* A float64 cell of a pandas column is a binary64 number, the primitive
   float of the kernel.  What numpy computes cell by cell (+, -, *, /,
   abs, sqrt, <, ==) is the IEEE-754 operation, rounded to nearest with
   ties to even; a decimal constant of the code (0.2, 1.15) is the nearest
   binary64 number, as in Python.  NaN is the missing sample. *)
Definition NaN : float := nan.

Definition isnan (x : float) : bool := is_nan x.
Definition isinf (x : float) : bool := is_infinity x.

Definition fneg (x : float) : float := PrimFloat.opp x.
Definition fadd (x y : float) : float := PrimFloat.add x y.
Definition fsub (x y : float) : float := PrimFloat.sub x y.
Definition fmul (x y : float) : float := PrimFloat.mul x y.
Definition fdiv (x y : float) : float := PrimFloat.div x y.
Definition fabs (x : float) : float := PrimFloat.abs x.

(* comparisons: every comparison with NaN is False *)
Definition flt (x y : float) : bool := PrimFloat.ltb x y.
Definition fgt (x y : float) : bool := PrimFloat.ltb y x.
Definition feq (x y : float) : bool := PrimFloat.eqb x y.

(* 2**52: from there on every binary64 number is an integer *)
Definition two52 : float := 4503599627370496%float.

(* numpy.rint: the nearest integer, ties to the even one.  Below 2**52 in
   magnitude, adding and taking away 2**52 rounds to an integer; the sign
   is kept, a zero stays as it is. *)
Definition rint (x : float) : float :=
  if flt (fabs x) two52 then
    if flt x 0%float then fneg (fsub (fadd (fneg x) two52) two52)
    else if feq x 0%float then x
    else fsub (fadd x two52) two52
  else x.

Fixpoint pow10 (decimals : nat) : float :=
  match decimals with
  | O => 1%float
  | S d => fmul 10%float (pow10 d)
  end.

(* numpy.round(x, decimals) for decimals >= 0:
   rint(x * 10**decimals) / 10**decimals, each step in binary64 *)
Definition fround (decimals : nat) (x : float) : float :=
  fdiv (rint (fmul x (pow10 decimals))) (pow10 decimals).

(* pandas' zsqrt: numpy.sqrt, with 0 where the argument is below 0 *)
Definition zsqrt (x : float) : float :=
  if flt x 0%float then 0%float else PrimFloat.sqrt x.

(* an integer count as a float64 *)
Definition of_Z (z : Z) : float :=
  if z <? 0 then fneg (of_uint63 (Uint63.of_Z (- z)))
  else of_uint63 (Uint63.of_Z z).
Definition of_nat (n : nat) : float := of_Z (Z.of_nat n).
Definition of_bool (b : bool) : float := if b then 1%float else 0%float.

(* truth value of a Python float: only 0.0 and -0.0 are falsy (NaN is
   truthy) *)
Definition truthy (x : float) : bool := negb (feq x 0%float).

(* ===================================================================== *)
(* 2. Series                                                             *)
(* ===================================================================== *)

(* A Series is the list of its cells in index order; positions stand for
   the hourly timestamps. *)
Definition at_ (s : list float) (i : nat) : float := nth i s NaN.

Definition dropna (s : list float) : list float :=
  filter (λ x, isnan x = false) s.

Definition count_notna (s : list float) : nat := length (dropna s).

(* Series.shift(periods): cells move down by [periods] rows (up when it
   is negative), the vacated cells are NaN, the length is kept. *)
Definition shift (periods : Z) (s : list float) : list float :=
  let n := length s in
  if 0 <=? periods
  then take n (replicate (Z.to_nat periods) NaN ++ s)
  else drop (Z.to_nat (- periods)) s
       ++ replicate (Nat.min (Z.to_nat (- periods)) n) NaN.

(* elementwise binary operations of two aligned Series *)
Definition sdiv (a b : list float) : list float := zip_with fdiv a b.
Definition ssub (a b : list float) : list float := zip_with fsub a b.
Definition sgt (a b : list float) : list bool := zip_with fgt a b.
Definition sand (a b : list bool) : list bool := zip_with andb a b.
Definition sor (a b : list bool) : list bool := zip_with orb a b.

(* a Series against a scalar *)
Definition sgt_c (a : list float) (c : float) : list bool := map (λ x, fgt x c) a.
Definition slt_c (a : list float) (c : float) : list bool := map (λ x, flt x c) a.
Definition smul_c (a : list float) (c : float) : list float := map (λ x, fmul x c) a.

(* Series.diff(periods) = s - s.shift(periods) *)
Definition diff (periods : Z) (s : list float) : list float :=
  ssub s (shift periods s).

(* the rows lo .. hi-1 of a Series, clipped to what exists *)
Definition slice (lo hi : nat) (s : list float) : list float :=
  drop lo (take hi s).

(* The window of a fixed-size rolling object at row i: the [window] rows
   ending at row i, or at row i + (window-1)//2 when centered; rows
   before the first or after the last one are not there. *)
Definition window_at (window : nat) (center : bool) (s : list float) (i : nat)
  : list float :=
  let offset := if center then ((window - 1) / 2)%nat else 0%nat in
  slice (i + offset + 1 - window) (i + offset + 1) s.

(* what a rolling object works on: the column with +inf and -inf replaced
   by NaN *)
Definition prep (s : list float) : list float :=
  map (λ x, if isinf x then NaN else x) s.

(* rolling(window, min_periods, center).apply(func, raw=True): func sees
   the window of the prepared column (NaN included, shorter at the edges)
   provided it holds at least min_periods observations; the result is NaN
   otherwise. *)
Definition rolling_apply (window min_periods : nat) (center : bool)
    (func : list float → float) (s : list float) : list float :=
  map (λ i, let w := window_at window center (prep s) i in
            if (min_periods <=? count_notna w)%nat then func w else NaN)
      (seq 0 (length s)).

(* What the numerical libraries compute where the order of the floating
   point operations is their own business, and differs between versions:
   the reductions.  The rules are stated for every such library. *)
Record Library : Type := mkLibrary {
  (* numpy: ndarray.sum() of a float64 array *)
  np_sum : list float → float;
  (* pandas: the variance the rolling kernel holds at row i of the
     prepared column, for windows of [window] rows and [ddof] delta degrees
     of freedom; read only where the window holds more than ddof
     observations *)
  roll_var : nat → nat → list float → nat → float;
  (* pandas: the sum the rolling kernel holds at row i of the prepared
     column, for windows of [window] rows *)
  roll_sum : nat → list float → nat → float;
  (* pandas: the weighted mean of the centered window at row i of the
     prepared column, read only where the window is full *)
  roll_weighted_mean : list float → list float → nat → float;
  (* scipy.signal.savgol_filter(x, window_length, polyorder, deriv,
     mode='nearest') *)
  savgol_filter : list float → nat → nat → nat → list float
}.

Section Rolling.
Variable lib : Library.

(* rolling(window, min_periods).sum(): missing unless the window holds
   min_periods observations *)
Definition rolling_sum (window min_periods : nat) (s : list float) : list float :=
  map (λ i, let w := window_at window false (prep s) i in
            if (min_periods <=? count_notna w)%nat
            then roll_sum lib window (prep s) i else NaN)
      (seq 0 (length s)).

(* rolling(window, min_periods).std(): the square root of the rolling
   variance with one delta degree of freedom; missing unless the window
   holds min_periods observations and more than one *)
Definition rolling_std (window min_periods : nat) (s : list float) : list float :=
  map (λ i, let w := window_at window false (prep s) i in
            if (min_periods <=? count_notna w)%nat && (1 <? count_notna w)%nat
            then zsqrt (roll_var lib window 1 (prep s) i) else NaN)
      (seq 0 (length s)).

(* rolling(window=weights, win_type='boxcar', center=True).mean(): the
   weights are taken as given, min_periods defaults to their number, so a
   value needs a full window without NaN. *)
Definition rolling_weighted_mean (weights : list float) (s : list float)
  : list float :=
  let win_n := length weights in
  map (λ i, let w := window_at win_n true (prep s) i in
            if (win_n <=? count_notna w)%nat
            then roll_weighted_mean lib weights (prep s) i
            else NaN)
      (seq 0 (length s)).

End Rolling.

(* positions of the True cells of a boolean mask: df[mask].index *)
Fixpoint index_from (i : nat) (mask : list bool) : list nat :=
  match mask with
  | [] => []
  | b :: m => if b then i :: index_from (S i) m else index_from (S i) m
  end.

Definition index_of (mask : list bool) : list nat := index_from 0 mask.

(* ===================================================================== *)
(* 3. The table                                                          *)
(* ===================================================================== *)

(* A column is a float64 Series or a boolean one (the masks spike_2h and
   spike are stored as such); read as numbers, True is 1 and False 0. *)
Inductive column : Type :=
  | FloatCol (cells : list float)
  | BoolCol (cells : list bool).

Definition values (c : column) : list float :=
  match c with
  | FloatCol cells => cells
  | BoolCol cells => map of_bool cells
  end.

(* The DataFrame: its named columns, and the qflag column, one set of flag
   codes per row, each row owning its set (reset_qflags of the tests
   builds a fresh set per row). *)
Record DataFrame : Type := mkDataFrame {
  columns : gmap string column;
  qflag : list (gset Z)
}.

Inductive exn : Type :=
  | AttributeError (name : string)
  | KeyError (name : string).

(* A statement either completes or raises; the table it has mutated so far
   is there in both cases. *)
Inductive result (A : Type) : Type :=
  | Return (a : A) (df : DataFrame)
  | Raise (e : exn) (df : DataFrame).
Arguments Return {A} a df.
Arguments Raise {A} e df.

Definition py (A : Type) : Type := DataFrame → result A.

Definition state_of {A} (r : result A) : DataFrame :=
  match r with
  | Return _ df => df
  | Raise _ df => df
  end.

Definition completes {A} (r : result A) : Prop :=
  match r with
  | Return _ _ => True
  | Raise _ _ => False
  end.

#[global] Instance py_ret : MRet py := λ A a df, Return a df.
#[global] Instance py_bind : MBind py := λ A B f m df,
  match m df with
  | Return a df' => f a df'
  | Raise e df' => Raise e df'
  end.

(* df.name *)
Definition getattr (name : string) : py (list float) := λ df,
  match columns df !! name with
  | Some c => Return (values c) df
  | None => Raise (AttributeError name) df
  end.

(* df['name'] *)
Definition getitem (name : string) : py (list float) := λ df,
  match columns df !! name with
  | Some c => Return (values c) df
  | None => Raise (KeyError name) df
  end.

(* 'name' in df.columns *)
Definition has_column (name : string) : py bool := λ df,
  Return (bool_decide (is_Some (columns df !! name))) df.

(* df['name'] = column *)
Definition setitem (name : string) (c : column) : py unit := λ df,
  Return () (mkDataFrame (<[name := c]> (columns df)) (qflag df)).

(* df.qflag[index].apply(lambda x: x.add(code)): the set of every row of
   the index is mutated in place *)
Definition add_code (code : Z) (index : list nat) (q : list (gset Z))
  : list (gset Z) :=
  foldl (λ q i, alter (λ x, x ∪ {[code]}) i q) q index.

Definition qflag_add (code : Z) (index : list nat) : py unit := λ df,
  Return () (mkDataFrame (columns df) (add_code code index (qflag df))).

Definition len {A} (l : list A) : bool := (0 <? length l)%nat.

(* ===================================================================== *)
(* 4. The threshold rules                                                *)
(* ===================================================================== *)

Definition flag_c01 : py unit :=
  let low_boundary := 0%float in
  sm ← getattr "soil_moisture";
  let index := index_of (slt_c sm low_boundary) in
  if len index then qflag_add 1 index else mret ().

Definition flag_c02 : py unit :=
  let upper_boundary := 60%float in
  sm ← getattr "soil_moisture";
  let index := index_of (sgt_c sm upper_boundary) in
  if len index then qflag_add 2 index else mret ().

(* not hwsd: None and 0.0 are falsy *)
Definition not_ (hwsd : option float) : bool :=
  match hwsd with
  | None => true
  | Some x => negb (truthy x)
  end.

Definition flag_c03 (hwsd : option float) : py unit :=
  match hwsd with
  | Some h =>
      if not_ hwsd then mret ()
      else
        sm ← getattr "soil_moisture";
        let index := index_of (sgt_c sm h) in
        if len index then qflag_add 3 index else mret ()
  | None => mret ()
  end.

Definition flag_d01 : py unit :=
  present ← has_column "soil_temperature";
  if present : bool then
    st ← getattr "soil_temperature";
    let index := index_of (slt_c st 0%float) in
    if len index then qflag_add 4 index else mret ()
  else mret ().

Definition flag_d02 : py unit :=
  present ← has_column "air_temperature";
  if present : bool then
    t ← getitem "air_temperature";
    let index := index_of (slt_c t 0%float) in
    if len index then qflag_add 5 index else mret ()
  else mret ().

Definition flag_d03 : py unit :=
  present ← has_column "gldas_soil_temperature";
  if present : bool then
    t ← getitem "gldas_soil_temperature";
    let index := index_of (slt_c t 0%float) in
    if len index then qflag_add 6 index else mret ()
  else mret ().

(* ===================================================================== *)
(* 5. Derivatives                                                        *)
(* ===================================================================== *)

Section Rules.
Variable lib : Library.

(* savgol(x, 3, 2, deriv, mode='nearest') *)
Definition savgol (x : list float) (window_length polyorder deriv : nat)
  : list float :=
  savgol_filter lib x window_length polyorder deriv.

Definition apply_savgol : py unit :=
  sm ← getattr "soil_moisture";
  setitem "deriv1" (FloatCol (savgol sm 3 2 1));;
  sm ← getattr "soil_moisture";
  setitem "deriv2" (FloatCol (savgol sm 3 2 2)).

(* ===================================================================== *)
(* 6. The spike rule                                                     *)
(* ===================================================================== *)

(* variance of x(t-12 .. t+12) without the current value:
   x = np.delete(x, 12); x = x[~np.isnan(x)];
   ((x - x.mean()) ** 2).sum() / (len(x) - 1)
   with x.mean() = x.sum() / len(x) and the square a product *)
Definition rolling_var (x : list float) : float :=
  let x := delete 12%nat x in
  let x := dropna x in
  let mean := fdiv (np_sum lib x) (of_nat (length x)) in
  fdiv (np_sum lib (map (λ v, fmul (fsub v mean) (fsub v mean)) x))
       (of_Z (Z.of_nat (length x) - 1)).

(* is the middle element a positive or negative peak; 2 for a peak that
   lasts two samples *)
Definition peak (x : list float) : float :=
  let x0 := at_ x 0 in
  let x1 := at_ x 1 in
  let x2 := at_ x 2 in
  let x3 := at_ x 3 in
  if (flt x0 x1 && fgt x1 x2) || (fgt x0 x1 && flt x1 x2) then 1%float
  else if (3 <? length x)%nat then
    if (flt x0 x1 && feq x1 x2 && fgt x2 x3)
       || (fgt x0 x1 && feq x1 x2 && flt x2 x3)
    then 2%float else 0%float
  else 0%float.

(* np.ones(25) with the center value set to zero *)
Definition window : list float := <[12%nat := 0%float]> (replicate 25 1%float).

Definition flag_d06 : py unit :=
  sm_next ← getitem "soil_moisture";
  sm ← getitem "soil_moisture";
  setitem "criteria1"
    (FloatCol (map (fround 3) (shift 1 (sdiv (shift (-1) sm_next) sm))));;
  d2 ← getattr "deriv2";
  d2_next ← getitem "deriv2";
  setitem "criteria2"
    (FloatCol (map (fround 3)
                 (map fabs (shift 1 (sdiv d2 (shift (-2) d2_next))))));;
  sm_var ← getitem "soil_moisture";
  sm_mean ← getitem "soil_moisture";
  setitem "criteria3"
    (FloatCol (sdiv (map fabs (rolling_apply 25 25 true rolling_var sm_var))
                    (rolling_weighted_mean lib window sm_mean)));;
  sm_peak ← getitem "soil_moisture";
  setitem "criteria4"
    (FloatCol (shift (-1) (rolling_apply 4 3 true peak sm_peak)));;
  criteria4 ← getattr "criteria4";
  setitem "spike_2h" (BoolCol (sgt_c (shift 1 criteria4) 1.1%float));;
  criteria1_hi ← getattr "criteria1";
  criteria1_lo ← getattr "criteria1";
  spike_2h ← getattr "spike_2h";
  criteria2_lo ← getattr "criteria2";
  criteria2_hi ← getattr "criteria2";
  criteria3 ← getattr "criteria3";
  criteria4 ← getattr "criteria4";
  setitem "spike"
    (BoolCol
       (sand (sand (sand (sor (sor (sgt_c criteria1_hi 1.15%float)
                                   (slt_c criteria1_lo 0.85%float))
                              (sgt_c spike_2h 0%float))
                         (sand (sgt_c criteria2_lo 0.8%float)
                               (slt_c criteria2_hi 1.2%float)))
                   (slt_c criteria3 1%float))
             (sgt_c criteria4 0%float)));;
  spike ← getattr "spike";
  spike_prev ← getattr "spike";
  spike_2h ← getattr "spike_2h";
  let index := index_of (sor (sgt_c spike 0%float)
                             (sand (sgt_c (shift 1 spike_prev) 0%float)
                                   (sgt_c spike_2h 0%float))) in
  qflag_add 9 index.

(* ===================================================================== *)
(* 7. The rise rules and the pipeline                                    *)
(* ===================================================================== *)

Definition flag_d04 : py unit :=
  present ← has_column "precipitation";
  if present : bool then
    let min_precipitation := 0.2%float in
    sm ← getitem "soil_moisture";
    setitem "std_x2" (FloatCol (smul_c (rolling_std lib 25 1 sm) 2%float));;
    sm ← getitem "soil_moisture";
    setitem "rise24h" (FloatCol (diff 24 sm));;
    sm ← getitem "soil_moisture";
    setitem "rise1h" (FloatCol (diff 1 sm));;
    rise1h ← getitem "rise1h";
    rise24h ← getitem "rise24h";
    std_x2 ← getitem "std_x2";
    precipitation ← getitem "precipitation";
    let index := index_of (sand (sand (sgt_c rise1h 0%float)
                                      (sgt rise24h std_x2))
                                (slt_c precipitation min_precipitation)) in
    qflag_add 7 index
  else mret ().

Definition flag_d05 : py unit :=
  present ← has_column "gldas_precipitation";
  if present : bool then
    let min_precipitation := 0.2%float in
    sm ← getitem "soil_moisture";
    setitem "gl_std_x2" (FloatCol (smul_c (rolling_std lib 25 1 sm) 2%float));;
    sm ← getitem "soil_moisture";
    setitem "gl_rise24h" (FloatCol (diff 24 sm));;
    sm ← getitem "soil_moisture";
    setitem "gl_rise1h" (FloatCol (diff 1 sm));;
    gp ← getitem "gldas_precipitation";
    setitem "gldas_precipitation_total" (FloatCol (rolling_sum lib 24 1 gp));;
    rise1h ← getitem "gl_rise1h";
    rise24h ← getitem "gl_rise24h";
    std_x2 ← getitem "gl_std_x2";
    total ← getitem "gldas_precipitation_total";
    let index := index_of (sand (sand (sgt_c rise1h 0%float)
                                      (sgt rise24h std_x2))
                                (slt_c total min_precipitation)) in
    if len index then qflag_add 8 index else mret ()
  else mret ().

(* flagit returns the table it has mutated: the state of the result *)
Definition flagit : py unit :=
  flag_c01;;
  flag_c02;;
  flag_c03 None;;
  flag_d01;;
  flag_d02;;
  flag_d03;;
  flag_d04;;
  flag_d05;;
  flag_d06.

(* the rules as data, to speak about the order they run in *)
Inductive detector : Type :=
  | C01 | C02 | C03 (hwsd : option float)
  | D01 | D02 | D03 | D04 | D05 | D06.

Definition run (d : detector) : py unit :=
  match d with
  | C01 => flag_c01
  | C02 => flag_c02
  | C03 hwsd => flag_c03 hwsd
  | D01 => flag_d01
  | D02 => flag_d02
  | D03 => flag_d03
  | D04 => flag_d04
  | D05 => flag_d05
  | D06 => flag_d06
  end.

(* the rules one after the other; a rule that raises ends the run *)
Fixpoint run_all (l : list detector) : py unit :=
  match l with
  | [] => mret ()
  | d :: l => run d;; run_all l
  end.

(* the order of flagit *)
Definition pipeline : list detector :=
  [C01; C02; C03 None; D01; D02; D03; D04; D05; D06].

(* the code a rule adds *)
Definition code (d : detector) : Z :=
  match d with
  | C01 => 1
  | C02 => 2
  | C03 _ => 3
  | D01 => 4
  | D02 => 5
  | D03 => 6
  | D04 => 7
  | D05 => 8
  | D06 => 9
  end.

(* ===================================================================== *)
(* 8. Reading the table row by row                                       *)
(* ===================================================================== *)

(* the raw fields of an observation, and what the rules read *)
Definition raw_fields : list string :=
  ["soil_moisture"; "soil_temperature"; "air_temperature";
   "gldas_soil_temperature"; "precipitation"; "gldas_precipitation"].

Definition input_names : list string := "deriv2" :: raw_fields.

(* the cells of a column, none when the column is absent *)
Definition col (cols : gmap string column) (name : string) : list float :=
  from_option values [] (cols !! name).

(* the cell of column [name] at row t *)
Definition cell (df : DataFrame) (name : string) (t : nat) : float :=
  at_ (col (columns df) name) t.

(* is row t in the mask *)
Definition ison (mask : list bool) (t : nat) : bool := nth t mask false.

(* s[t-k], missing when there is no row t-k *)
Definition lag (k : nat) (s : list float) (t : nat) : float :=
  if (t <? k)%nat then NaN else at_ s (t - k).

(* the rise condition at row t, in the words of the specification *)
Definition rise_at (sm std_x2 precip_signal : list float) (t : nat) : bool :=
  let rise1h := fsub (at_ sm t) (lag 1 sm t) in
  let rise24h := fsub (at_ sm t) (lag 24 sm t) in
  fgt rise1h 0%float && fgt rise24h (at_ std_x2 t)
  && flt (at_ precip_signal t) 0.2%float.

(* the spike tests at row t, in the words of the specification *)
Definition abrupt_change (criteria1 : float) : bool :=
  fgt criteria1 1.15%float || flt criteria1 0.85%float.

Definition symmetric (criteria2 : float) : bool :=
  fgt criteria2 0.8%float && flt criteria2 1.2%float.

Definition spike_2h_at (df : DataFrame) (t : nat) : bool :=
  fgt (lag 1 (col (columns df) "criteria4") t) 1.1%float.

Definition spike_at (df : DataFrame) (t : nat) : bool :=
  (abrupt_change (cell df "criteria1" t) || spike_2h_at df t)
  && symmetric (cell df "criteria2" t)
  && flt (cell df "criteria3" t) 1%float
  && fgt (cell df "criteria4" t) 0%float.



(* ===================================================================== *)
(* 9. What a rule computes from the columns it reads                     *)
(* ===================================================================== *)

(* the columns flag_d06 stores, as functions of soil_moisture and deriv2 *)
Definition criteria1_of (sm : list float) : list float :=
  map (fround 3) (shift 1 (sdiv (shift (-1) sm) sm)).

Definition criteria2_of (d2 : list float) : list float :=
  map (fround 3) (map fabs (shift 1 (sdiv d2 (shift (-2) d2)))).

Definition criteria3_of (sm : list float) : list float :=
  sdiv (map fabs (rolling_apply 25 25 true rolling_var sm))
       (rolling_weighted_mean lib window sm).

Definition criteria4_of (sm : list float) : list float :=
  shift (-1) (rolling_apply 4 3 true peak sm).

Definition spike_2h_of (sm : list float) : list bool :=
  sgt_c (shift 1 (criteria4_of sm)) 1.1%float.

Definition spike_of (sm d2 : list float) : list bool :=
  sand (sand (sand (sor (sor (sgt_c (criteria1_of sm) 1.15%float)
                             (slt_c (criteria1_of sm) 0.85%float))
                        (sgt_c (map of_bool (spike_2h_of sm)) 0%float))
                   (sand (sgt_c (criteria2_of d2) 0.8%float)
                         (slt_c (criteria2_of d2) 1.2%float)))
             (slt_c (criteria3_of sm) 1%float))
       (sgt_c (criteria4_of sm) 0%float).

Definition flag9_mask (sm d2 : list float) : list bool :=
  sor (sgt_c (map of_bool (spike_of sm d2)) 0%float)
      (sand (sgt_c (shift 1 (map of_bool (spike_of sm d2))) 0%float)
            (sgt_c (map of_bool (spike_2h_of sm)) 0%float)).

Definition d06_columns (sm d2 : list float) (cols : gmap string column)
  : gmap string column :=
  <["spike" := BoolCol (spike_of sm d2)]>
    (<["spike_2h" := BoolCol (spike_2h_of sm)]>
       (<["criteria4" := FloatCol (criteria4_of sm)]>
          (<["criteria3" := FloatCol (criteria3_of sm)]>
             (<["criteria2" := FloatCol (criteria2_of d2)]>
                (<["criteria1" := FloatCol (criteria1_of sm)]> cols))))).

(* the mask of the rise rules *)
Definition std_x2_of (sm : list float) : list float :=
  smul_c (rolling_std lib 25 1 sm) 2%float.

Definition rise_mask (sm precip_signal : list float) : list bool :=
  sand (sand (sgt_c (diff 1 sm) 0%float) (sgt (diff 24 sm) (std_x2_of sm)))
       (slt_c precip_signal 0.2%float).

Definition present (cols : gmap string column) (name : string) : bool :=
  bool_decide (is_Some (cols !! name)).

(* the rows a rule adds its code to, from the columns it reads *)
Definition fired (d : detector) (cols : gmap string column) : list nat :=
  let sm := col cols "soil_moisture" in
  match d with
  | C01 => index_of (slt_c sm 0%float)
  | C02 => index_of (sgt_c sm 60%float)
  | C03 hwsd =>
      match hwsd with
      | Some h => if truthy h then index_of (sgt_c sm h) else []
      | None => []
      end
  | D01 => index_of (slt_c (col cols "soil_temperature") 0%float)
  | D02 => index_of (slt_c (col cols "air_temperature") 0%float)
  | D03 => index_of (slt_c (col cols "gldas_soil_temperature") 0%float)
  | D04 =>
      if present cols "precipitation"
      then index_of (rise_mask sm (col cols "precipitation")) else []
  | D05 =>
      if present cols "gldas_precipitation"
      then index_of (rise_mask sm
                       (rolling_sum lib 24 1 (col cols "gldas_precipitation")))
      else []
  | D06 =>
      if present cols "deriv2"
      then index_of (flag9_mask sm (col cols "deriv2")) else []
  end.

End Rules.

(* ===================================================================== *)
(* 9b. What a statement leaves alone                                     *)
(* ===================================================================== *)

(* the statement leaves the columns [names] as they are, whether it
   completes or raises *)
Definition keeps (names : list string) {A} (m : py A) : Prop :=
  ∀ df n, n ∈ names → columns (state_of (m df)) !! n = columns df !! n.

(* every row's set of codes only grows *)
Definition grows (q q' : list (gset Z)) : Prop :=
  length q' = length q
  ∧ ∀ t s, q !! t = Some s → ∃ s', q' !! t = Some s' ∧ s ⊆ s'.

Section Outcome.
Variable lib : Library.

(* what running rule d on df may result in: it completes and has added
   its code to the rows it fires on, or it raises on a missing column and
   has touched no set *)
Definition ran (d : detector) (df : DataFrame) (r : result unit) : Prop :=
  (∃ cols', r = Return () (mkDataFrame cols'
                             (add_code (code d) (fired lib d (columns df))
                                (qflag df))))
  ∨ (∃ e cols', r = Raise e (mkDataFrame cols' (qflag df))
       ∧ fired lib d (columns df) = []
       ∧ (columns df !! "soil_moisture" = None
          ∨ (d = D06 ∧ columns df !! "deriv2" = None))).

End Outcome.

Section Order.
Variable lib : Library.

(* the codes the rules of l add, each to the rows it fires on given the
   columns cols *)
Definition add_all (cols : gmap string column) (l : list detector)
    (q : list (gset Z)) : list (gset Z) :=
  foldl (λ q d, add_code (code d) (fired lib d cols) q) q l.

End Order.

(* ===================================================================== *)
(* 9c. Example tables                                                    *)
(* ===================================================================== *)

(* a table of float columns with one empty set of codes per row *)
Definition table (sm : list float) (others : list (string * list float))
  : DataFrame :=
  mkDataFrame
    (list_to_map (("soil_moisture", FloatCol sm)
                  :: map (λ kv, (kv.1, FloatCol kv.2)) others))
    (replicate (length sm) ∅).

(* A reference library, to run the rules on example tables: every
   reduction is evaluated from left to right in binary64, the variance in
   two passes, and the filter has the exact coefficients of the quadratic
   fit over three samples. *)
Definition fsum (s : list float) : float := foldl fadd 0%float s.

Definition ref_var (window ddof : nat) (v : list float) (i : nat) : float :=
  let x := dropna (window_at window false v i) in
  let mean := fdiv (fsum x) (of_nat (length x)) in
  fdiv (fsum (map (λ a, fmul (fsub a mean) (fsub a mean)) x))
       (of_nat (length x - ddof)).

Definition ref_sum (window : nat) (v : list float) (i : nat) : float :=
  fsum (dropna (window_at window false v i)).

Definition ref_weighted_mean (weights v : list float) (i : nat) : float :=
  fdiv (fsum (zip_with fmul weights (window_at (length weights) true v i)))
       (fsum weights).

(* the cell at position i of x extended by mode='nearest': positions
   outside the Series take the value of the nearest end *)
Definition nearest (x : list float) (i : Z) : float :=
  at_ x (Z.to_nat (Z.max 0 (Z.min i (Z.of_nat (length x) - 1)))).

(* coefficients of a degree 2 fit over 3 samples, for the samples at
   t-1, t, t+1 *)
Definition savgol_coeffs (deriv : nat) : float * float * float :=
  match deriv with
  | 0%nat => (0%float, 1%float, 0%float)
  | 1%nat => ((-0.5)%float, 0%float, 0.5%float)
  | 2%nat => (1%float, (-2)%float, 1%float)
  | _ => (0%float, 0%float, 0%float)
  end.

(* the filter for window_length 3 and polyorder 2, the only call of the
   code *)
Definition ref_savgol (x : list float) (window_length polyorder deriv : nat)
  : list float :=
  let '(c_prev, c_mid, c_next) := savgol_coeffs deriv in
  map (λ i, let t := Z.of_nat i in
            fadd (fadd (fmul c_prev (nearest x (t - 1)))
                       (fmul c_mid (nearest x t)))
                 (fmul c_next (nearest x (t + 1))))
      (seq 0 (length x)).

Definition reference : Library :=
  mkLibrary fsum ref_var ref_sum ref_weighted_mean ref_savgol.

(* 25 hours at 10 with a plateau of two hours at 12 in the middle *)
Definition plateau : list float :=
  replicate 12 10%float ++ [12%float; 12%float] ++ replicate 11 10%float.

(* a day at 10, then a jump to 15 without rain *)
Definition jump : list float := replicate 25 10%float ++ [15%float; 15%float].

(* n hours without rain *)
Definition dry (n : nat) : list float := replicate n 0%float.

(* five hours of accelerating rise *)
Definition rising : list float := [0%float; 1%float; 3%float; 7%float; 15%float].


(* readings whose hourly ratios are 1003/2000 and 23.01/20 *)
Definition ratios : list float :=
  [2000%float; 1003%float; 20%float; 23.01%float].

(* second derivatives whose ratios around hours 1 and 2 are 23.99/20 and
   1003/2000 *)
Definition curves : list float :=
  [23.99%float; 1003%float; 20%float; 2000%float].

(* second derivatives of 5 before hour 2 and 4 after it, and the other
   way round *)
Definition bends : list float := [0%float; 5%float; 0%float; 4%float; 0%float].
Definition level : list float := [0%float; 4%float; 0%float; 5%float; 0%float].

(* ===================================================================== *)
(* 10. Facts about cells and Series                                      *)
(* ===================================================================== *)

Lemma nan_spec : Prim2SF NaN = S754_nan.
Proof. reflexivity. Qed.

Lemma fsub_nan_l y : fsub NaN y = NaN.
Proof. apply Prim2SF_inj. unfold fsub. by rewrite FloatAxioms.sub_spec, nan_spec. Qed.

Lemma fsub_nan_r x : fsub x NaN = NaN.
Proof.
  apply Prim2SF_inj. unfold fsub. rewrite FloatAxioms.sub_spec, nan_spec.
  unfold SF64sub, SFsub. by destruct (Prim2SF x).
Qed.

Lemma fdiv_nan_l y : fdiv NaN y = NaN.
Proof. apply Prim2SF_inj. unfold fdiv. by rewrite FloatAxioms.div_spec, nan_spec. Qed.

Lemma fdiv_nan_r x : fdiv x NaN = NaN.
Proof.
  apply Prim2SF_inj. unfold fdiv. rewrite FloatAxioms.div_spec, nan_spec.
  unfold SF64div, SFdiv. by destruct (Prim2SF x).
Qed.

Lemma fmul_nan_l y : fmul NaN y = NaN.
Proof. apply Prim2SF_inj. unfold fmul. by rewrite FloatAxioms.mul_spec, nan_spec. Qed.

Lemma flt_nan_l y : flt NaN y = false.
Proof. unfold flt. by rewrite FloatAxioms.ltb_spec, nan_spec. Qed.

Lemma flt_nan_r x : flt x NaN = false.
Proof.
  unfold flt. rewrite FloatAxioms.ltb_spec, nan_spec. unfold SFltb, SFcompare.
  by destruct (Prim2SF x) as [| | |[] ? ?].
Qed.

Lemma fgt_nan_l y : fgt NaN y = false.
Proof. apply flt_nan_r. Qed.

Lemma fgt_nan_r x : fgt x NaN = false.
Proof. apply flt_nan_l. Qed.

Lemma at_lookup (s : list float) (i : nat) : at_ s i = default NaN (s !! i).
Proof. unfold at_. by rewrite nth_lookup. Qed.

Lemma at_ge (s : list float) (i : nat) : (length s ≤ i)%nat → at_ s i = NaN.
Proof. intros H. rewrite at_lookup. by rewrite lookup_ge_None_2. Qed.

Lemma at_map (f : float → float) (s : list float) (i : nat) :
  f NaN = NaN → at_ (map f s) i = f (at_ s i).
Proof.
  intros Hf. rewrite !at_lookup, list_lookup_fmap.
  by destruct (s !! i).
Qed.

Lemma at_zip_with (f : float → float → float) (a b : list float) (i : nat) :
  (∀ y, f NaN y = NaN) → (∀ x, f x NaN = NaN) →
  at_ (zip_with f a b) i = f (at_ a i) (at_ b i).
Proof.
  intros Hl Hr. rewrite !at_lookup, lookup_zip_with.
  destruct (a !! i), (b !! i); simpl; auto.
Qed.

Lemma length_shift (k : Z) (s : list float) : length (shift k s) = length s.
Proof.
  unfold shift. destruct (0 <=? k).
  - rewrite length_take, length_app, length_replicate. lia.
  - rewrite length_app, length_drop, length_replicate. lia.
Qed.

Lemma at_shift_back (k : nat) (s : list float) (i : nat) :
  (0 < k)%nat → at_ (shift (- Z.of_nat k) s) i = at_ s (i + k).
Proof.
  intros Hk. unfold shift.
  destruct (0 <=? - Z.of_nat k) eqn:E; [apply Z.leb_le in E; lia|].
  replace (Z.to_nat (- - Z.of_nat k)) with k by lia.
  rewrite !at_lookup.
  destruct (decide (i + k < length s)%nat) as [Hlt|Hge].
  - rewrite lookup_app_l by (rewrite length_drop; lia).
    rewrite lookup_drop. by rewrite (Nat.add_comm k i).
  - rewrite (lookup_ge_None_2 s (i + k)) by lia.
    destruct (decide (i < length s)%nat) as [Hi|Hi].
    + rewrite lookup_app_r by (rewrite length_drop; lia).
      rewrite lookup_replicate_2; [done|]. rewrite length_drop. lia.
    + rewrite lookup_ge_None_2; [done|].
      rewrite length_app, length_drop, length_replicate. lia.
Qed.

Lemma at_shift_fwd (k : nat) (s : list float) (i : nat) :
  (i < length s)%nat → at_ (shift (Z.of_nat k) s) i = lag k s i.
Proof.
  intros Hi. unfold shift, lag.
  destruct (0 <=? Z.of_nat k) eqn:E; [|apply Z.leb_gt in E; lia].
  rewrite Nat2Z.id, !at_lookup, lookup_take_lt by done.
  destruct (i <? k)%nat eqn:Hik.
  - apply Nat.ltb_lt in Hik.
    rewrite lookup_app_l by (rewrite length_replicate; lia).
    by rewrite lookup_replicate_2.
  - apply Nat.ltb_ge in Hik.
    rewrite lookup_app_r by (rewrite length_replicate; lia).
    by rewrite length_replicate.
Qed.

Lemma at_shift_fwd_ge (k : Z) (s : list float) (i : nat) :
  (length s ≤ i)%nat → at_ (shift k s) i = NaN.
Proof. intros Hi. apply at_ge. by rewrite length_shift. Qed.

Lemma at_diff (k : nat) (s : list float) (i : nat) :
  at_ (diff (Z.of_nat k) s) i = fsub (at_ s i) (lag k s i).
Proof.
  unfold diff, ssub.
  rewrite at_zip_with by (apply fsub_nan_l || apply fsub_nan_r).
  destruct (decide (i < length s)%nat) as [Hi|Hi].
  - by rewrite at_shift_fwd.
  - rewrite (at_ge s i) by lia. by rewrite !fsub_nan_l.
Qed.

(* masks *)
Lemma ison_lookup (m : list bool) (i : nat) : ison m i = default false (m !! i).
Proof. unfold ison. by rewrite nth_lookup. Qed.

Lemma ison_map (f : float → bool) (s : list float) (i : nat) :
  f NaN = false → ison (map f s) i = f (at_ s i).
Proof.
  intros Hf. rewrite ison_lookup, at_lookup, list_lookup_fmap.
  by destruct (s !! i).
Qed.

Lemma ison_sgt_c (s : list float) (c : float) (i : nat) :
  ison (sgt_c s c) i = fgt (at_ s i) c.
Proof. apply (ison_map (λ x, fgt x c)). apply fgt_nan_l. Qed.

Lemma ison_slt_c (s : list float) (c : float) (i : nat) :
  ison (slt_c s c) i = flt (at_ s i) c.
Proof. apply (ison_map (λ x, flt x c)). apply flt_nan_l. Qed.

Lemma ison_sgt (a b : list float) (i : nat) :
  ison (sgt a b) i = fgt (at_ a i) (at_ b i).
Proof.
  unfold sgt. rewrite ison_lookup, !at_lookup, lookup_zip_with.
  destruct (a !! i), (b !! i); simpl; auto using fgt_nan_l, fgt_nan_r.
Qed.

Lemma ison_sand (a b : list bool) (i : nat) :
  ison (sand a b) i = ison a i && ison b i.
Proof.
  unfold sand. rewrite !ison_lookup, lookup_zip_with.
  destruct (a !! i), (b !! i); simpl; auto using andb_false_r.
Qed.

Lemma ison_sor (a b : list bool) (i : nat) :
  length a = length b → ison (sor a b) i = ison a i || ison b i.
Proof.
  intros Hlen. unfold sor. rewrite !ison_lookup, lookup_zip_with.
  destruct (a !! i) eqn:Ha, (b !! i) eqn:Hb; simpl; auto.
  - apply lookup_lt_Some in Ha. apply lookup_ge_None in Hb. lia.
  - apply lookup_lt_Some in Hb. apply lookup_ge_None in Ha. lia.
Qed.

Lemma ison_of_bool (m : list bool) (i : nat) :
  ison (sgt_c (map of_bool m) 0%float) i = ison m i.
Proof.
  rewrite ison_sgt_c, at_lookup, ison_lookup, list_lookup_fmap.
  by destruct (m !! i) as [[]|].
Qed.

Lemma index_from_elem (mask : list bool) (i t : nat) :
  t ∈ index_from i mask ↔ (i ≤ t)%nat ∧ mask !! (t - i)%nat = Some true.
Proof.
  revert i. induction mask as [|b m IH]; intros i; simpl.
  - rewrite elem_of_nil, lookup_nil. intuition congruence.
  - assert (Hstep : (S i ≤ t)%nat → (t - i)%nat = S (t - S i)) by lia.
    destruct b.
    + rewrite elem_of_cons, IH. split.
      * intros [Heq|[Hle Hl]].
        -- subst t. split; [lia|]. by rewrite Nat.sub_diag.
        -- split; [lia|]. by rewrite Hstep.
      * intros [Hle Hl]. destruct (decide (t = i)) as [Heq|Hne]; [by left|right].
        split; [lia|]. by rewrite Hstep in Hl by lia.
    + rewrite IH. split.
      * intros [Hle Hl]. split; [lia|]. by rewrite Hstep.
      * intros [Hle Hl]. destruct (decide (t = i)) as [Heq|Hne].
        -- subst t. by rewrite Nat.sub_diag in Hl.
        -- split; [lia|]. by rewrite Hstep in Hl by lia.
Qed.

Lemma index_of_elem (mask : list bool) (t : nat) :
  t ∈ index_of mask ↔ ison mask t = true.
Proof.
  unfold index_of. rewrite index_from_elem, Nat.sub_0_r, ison_lookup.
  destruct (mask !! t) as [[]|]; simpl; intuition (try congruence; try lia).
Qed.

Lemma add_code_lookup (c : Z) (index : list nat) (q : list (gset Z)) (t : nat) :
  add_code c index q !! t
  = (λ s, if bool_decide (t ∈ index) then s ∪ {[c]} else s) <$> q !! t.
Proof.
  unfold add_code. revert q. induction index as [|i index IH]; intros q; simpl.
  - by destruct (q !! t).
  - rewrite IH. destruct (decide (t = i)) as [->|Hne].
    + rewrite list_lookup_alter_eq. destruct (q !! i) as [s|]; simpl; [|done].
      rewrite (bool_decide_eq_true_2 (i ∈ i :: index)) by (apply elem_of_cons; by left).
      f_equal. case_bool_decide; [|done].
      rewrite <- (assoc_L (∪)). f_equal. apply (idemp_L (∪)).
    + rewrite list_lookup_alter_ne by done. destruct (q !! t) as [s|]; simpl; [|done].
      f_equal. rewrite (bool_decide_ext (t ∈ i :: index) (t ∈ index)); [done|].
      rewrite elem_of_cons. intuition congruence.
Qed.

Lemma add_code_length (c : Z) (index : list nat) (q : list (gset Z)) :
  length (add_code c index q) = length q.
Proof.
  unfold add_code. revert q. induction index as [|i index IH]; intros q; simpl; [done|].
  by rewrite IH, length_alter.
Qed.

Lemma add_code_nil (c : Z) (q : list (gset Z)) : add_code c [] q = q.
Proof. done. Qed.

(* ===================================================================== *)
(* 11. Running statements                                                *)
(* ===================================================================== *)

Lemma bind_getitem (name : string) (c : column) {B} (f : list float → py B)
    (df : DataFrame) :
  columns df !! name = Some c → (getitem name ≫= f) df = f (values c) df.
Proof. intros H. unfold mbind, py_bind, getitem. by rewrite H. Qed.

Lemma bind_getattr (name : string) (c : column) {B} (f : list float → py B)
    (df : DataFrame) :
  columns df !! name = Some c → (getattr name ≫= f) df = f (values c) df.
Proof. intros H. unfold mbind, py_bind, getattr. by rewrite H. Qed.

Lemma bind_getitem_none (name : string) {B} (f : list float → py B)
    (df : DataFrame) :
  columns df !! name = None → (getitem name ≫= f) df = Raise (KeyError name) df.
Proof. intros H. unfold mbind, py_bind, getitem. by rewrite H. Qed.

Lemma bind_getattr_none (name : string) {B} (f : list float → py B)
    (df : DataFrame) :
  columns df !! name = None
  → (getattr name ≫= f) df = Raise (AttributeError name) df.
Proof. intros H. unfold mbind, py_bind, getattr. by rewrite H. Qed.

Lemma bind_setitem (name : string) (c : column) {B} (f : unit → py B)
    (df : DataFrame) :
  (setitem name c ≫= f) df
  = f () (mkDataFrame (<[name := c]> (columns df)) (qflag df)).
Proof. done. Qed.

Lemma bind_has_column (name : string) {B} (f : bool → py B) (df : DataFrame) :
  (has_column name ≫= f) df = f (present (columns df) name) df.
Proof. done. Qed.

Lemma guarded_add (c : Z) (index : list nat) (df : DataFrame) :
  state_of ((if len index then qflag_add c index else mret ()) df)
  = mkDataFrame (columns df) (add_code c index (qflag df)).
Proof. destruct df, index; reflexivity. Qed.

Lemma guarded_add_completes (c : Z) (index : list nat) (df : DataFrame) :
  completes ((if len index then qflag_add c index else mret ()) df).
Proof. by destruct index. Qed.

Ltac find_column :=
  cbn [columns qflag];
  repeat (rewrite lookup_insert_ne by done);
  first [apply lookup_insert_eq | eassumption].

Ltac py_step :=
  first
    [ rewrite bind_setitem
    | erewrite bind_getitem by find_column
    | erewrite bind_getattr by find_column
    | rewrite bind_has_column ];
  cbn [values columns qflag].

Section SpikeRun.
Variable lib : Library.

(* flag_d06 on a table that has soil_moisture and deriv2 *)
Lemma flag_d06_run (df : DataFrame) (c_sm c_d2 : column) :
  columns df !! "soil_moisture" = Some c_sm →
  columns df !! "deriv2" = Some c_d2 →
  flag_d06 lib df
  = Return () (mkDataFrame
                 (d06_columns lib (values c_sm) (values c_d2) (columns df))
                 (add_code 9 (index_of (flag9_mask lib (values c_sm) (values c_d2)))
                    (qflag df))).
Proof.
  intros Hsm Hd2. unfold flag_d06.
  repeat py_step. reflexivity.
Qed.

End SpikeRun.

(* ===================================================================== *)
(* 12. The columns a rule leaves alone                                   *)
(* ===================================================================== *)

Section Keeps.
Variable names : list string.

Lemma keeps_ret {A} (a : A) : keeps names (mret a : py A).
Proof. by intros df n _. Qed.

Lemma keeps_bind {A B} (m : py A) (f : A → py B) :
  keeps names m → (∀ a, keeps names (f a)) → keeps names (m ≫= f).
Proof.
  intros Hm Hf df n Hn. specialize (Hm df n Hn).
  unfold mbind, py_bind. destruct (m df) as [a df'|e df']; simpl in *.
  - by rewrite (Hf a df' n Hn).
  - done.
Qed.

Lemma keeps_getattr (name : string) : keeps names (getattr name).
Proof. intros df n _. unfold getattr. by destruct (columns df !! name). Qed.

Lemma keeps_getitem (name : string) : keeps names (getitem name).
Proof. intros df n _. unfold getitem. by destruct (columns df !! name). Qed.

Lemma keeps_has_column (name : string) : keeps names (has_column name).
Proof. by intros df n _. Qed.

Lemma keeps_setitem (name : string) (c : column) :
  name ∉ names → keeps names (setitem name c).
Proof.
  intros Hname df n Hn. simpl. apply lookup_insert_ne. by intros ->.
Qed.

Lemma keeps_qflag_add (c : Z) (index : list nat) :
  keeps names (qflag_add c index).
Proof. by intros df n _. Qed.

Lemma keeps_if {A} (b : bool) (m1 m2 : py A) :
  keeps names m1 → keeps names m2 → keeps names (if b then m1 else m2).
Proof. by destruct b. Qed.

End Keeps.

Ltac keeps_tac :=
  repeat first
    [ apply keeps_bind; [|intros ?]
    | apply keeps_if
    | apply keeps_ret
    | apply keeps_getattr
    | apply keeps_getitem
    | apply keeps_has_column
    | apply keeps_qflag_add
    | apply keeps_setitem; unfold input_names, raw_fields;
      rewrite !elem_of_cons, elem_of_nil; intros H;
      repeat (destruct H as [H|H]; [discriminate H|]); exact H ].

Lemma keeps_flag_c01 : keeps input_names flag_c01.
Proof. unfold flag_c01. keeps_tac. Qed.

Lemma keeps_flag_c02 : keeps input_names flag_c02.
Proof. unfold flag_c02. keeps_tac. Qed.

Lemma keeps_flag_c03 (hwsd : option float) : keeps input_names (flag_c03 hwsd).
Proof. unfold flag_c03. destruct hwsd; keeps_tac. Qed.

Lemma keeps_flag_d01 : keeps input_names flag_d01.
Proof. unfold flag_d01. keeps_tac. Qed.

Lemma keeps_flag_d02 : keeps input_names flag_d02.
Proof. unfold flag_d02. keeps_tac. Qed.

Lemma keeps_flag_d03 : keeps input_names flag_d03.
Proof. unfold flag_d03. keeps_tac. Qed.

Lemma keeps_flag_d06 (lib : Library) : keeps input_names (flag_d06 lib).
Proof. unfold flag_d06. keeps_tac. Qed.

Section RiseKeeps.
Variable lib : Library.

Lemma keeps_flag_d04 : keeps input_names (flag_d04 lib).
Proof. unfold flag_d04. keeps_tac. Qed.

Lemma keeps_flag_d05 : keeps input_names (flag_d05 lib).
Proof. unfold flag_d05. keeps_tac. Qed.

Lemma keeps_run (d : detector) : keeps input_names (run lib d).
Proof.
  destruct d; simpl;
    auto using keeps_flag_c01, keeps_flag_c02, keeps_flag_c03, keeps_flag_d01,
      keeps_flag_d02, keeps_flag_d03, keeps_flag_d04, keeps_flag_d05,
      keeps_flag_d06.
Qed.

Lemma keeps_run_all (l : list detector) : keeps input_names (run_all lib l).
Proof.
  induction l as [|d l IH]; simpl.
  - apply keeps_ret.
  - apply keeps_bind; [apply keeps_run|]. by intros [].
Qed.

End RiseKeeps.

(* ===================================================================== *)
(* 13. What running a rule results in                                    *)
(* ===================================================================== *)

Lemma guarded_add_run (c : Z) (index : list nat) (df : DataFrame) :
  (if len index then qflag_add c index else mret ()) df
  = Return () (mkDataFrame (columns df) (add_code c index (qflag df))).
Proof. destruct df, index; reflexivity. Qed.

Lemma col_some (cols : gmap string column) (name : string) (c : column) :
  cols !! name = Some c → col cols name = values c.
Proof. intros H. unfold col. by rewrite H. Qed.

Lemma col_none (cols : gmap string column) (name : string) :
  cols !! name = None → col cols name = [].
Proof. intros H. unfold col. by rewrite H. Qed.

Lemma present_some (cols : gmap string column) (name : string) (c : column) :
  cols !! name = Some c → present cols name = true.
Proof. intros H. unfold present. rewrite H. by apply bool_decide_eq_true_2. Qed.

Lemma present_none (cols : gmap string column) (name : string) :
  cols !! name = None → present cols name = false.
Proof.
  intros H. unfold present. rewrite H. apply bool_decide_eq_false_2.
  by intros [? ?].
Qed.

Section Ran.
Variable lib : Library.

Lemma ran_threshold (d : detector) (df : DataFrame) (c : float) (cmp : list float → list bool) :
  fired lib d (columns df) = index_of (cmp (col (columns df) "soil_moisture")) →
  cmp [] = [] →
  ran lib d df
    ((sm ← getattr "soil_moisture";
      let index := index_of (cmp sm) in
      if len index then qflag_add (code d) index else mret ()) df).
Proof.
  intros Hfired Hnil.
  destruct (columns df !! "soil_moisture") as [c_sm|] eqn:Hsm.
  - erewrite bind_getattr by eassumption. cbv zeta. rewrite guarded_add_run.
    left. eexists. by rewrite Hfired, (col_some _ _ _ Hsm).
  - rewrite bind_getattr_none by done. right. eexists. exists (columns df).
    split; [by destruct df|]. split; [|by left].
    by rewrite Hfired, (col_none _ _ Hsm), Hnil.
Qed.

Lemma ran_flag_c01 (df : DataFrame) : ran lib C01 df (flag_c01 df).
Proof. by apply (ran_threshold C01 df 0%float (λ sm, slt_c sm 0%float)). Qed.

Lemma ran_flag_c02 (df : DataFrame) : ran lib C02 df (flag_c02 df).
Proof. by apply (ran_threshold C02 df 60%float (λ sm, sgt_c sm 60%float)). Qed.

Lemma ran_flag_c03 (hwsd : option float) (df : DataFrame) :
  ran lib (C03 hwsd) df (flag_c03 hwsd df).
Proof.
  unfold flag_c03. destruct hwsd as [h|]; simpl.
  - destruct (truthy h) eqn:Hh; simpl.
    + apply (ran_threshold (C03 (Some h)) df h (λ sm, sgt_c sm h)); [|done].
      simpl. by rewrite Hh.
    + left. exists (columns df). simpl. rewrite Hh. by destruct df.
  - left. exists (columns df). by destruct df.
Qed.

Lemma ran_temperature (d : detector) (df : DataFrame) (name : string)
    (get : string → py (list float)) :
  get = getattr ∨ get = getitem →
  fired lib d (columns df) = index_of (slt_c (col (columns df) name) 0%float) →
  ran lib d df
    ((present ← has_column name;
      if present : bool then
        t ← get name;
        let index := index_of (slt_c t 0%float) in
        if len index then qflag_add (code d) index else mret ()
      else mret ()) df).
Proof.
  intros Hget Hfired. rewrite bind_has_column.
  destruct (columns df !! name) as [c|] eqn:Hc.
  - rewrite (present_some _ _ _ Hc).
    assert ((get name ≫= λ t, let index := index_of (slt_c t 0%float) in
               if len index then qflag_add (code d) index else mret ()) df
            = (let index := index_of (slt_c (values c) 0%float) in
               if len index then qflag_add (code d) index else mret ()) df) as ->.
    { destruct Hget as [-> | ->];
        [by erewrite bind_getattr | by erewrite bind_getitem]. }
    cbv zeta. rewrite guarded_add_run. left. eexists.
    by rewrite Hfired, (col_some _ _ _ Hc).
  - rewrite (present_none _ _ Hc). left. exists (columns df).
    rewrite Hfired, (col_none _ _ Hc). by destruct df.
Qed.

Lemma ran_flag_d01 (df : DataFrame) : ran lib D01 df (flag_d01 df).
Proof. apply (ran_temperature D01 df "soil_temperature" getattr); auto. Qed.

Lemma ran_flag_d02 (df : DataFrame) : ran lib D02 df (flag_d02 df).
Proof. apply (ran_temperature D02 df "air_temperature" getitem); auto. Qed.

Lemma ran_flag_d03 (df : DataFrame) : ran lib D03 df (flag_d03 df).
Proof. apply (ran_temperature D03 df "gldas_soil_temperature" getitem); auto. Qed.

Lemma ran_flag_d04 (df : DataFrame) : ran lib D04 df (flag_d04 lib df).
Proof.
  unfold flag_d04. rewrite bind_has_column.
  destruct (columns df !! "precipitation") as [c_p|] eqn:Hp.
  - rewrite (present_some _ _ _ Hp).
    destruct (columns df !! "soil_moisture") as [c_sm|] eqn:Hsm.
    + repeat py_step. left. eexists. unfold qflag_add. cbn [columns qflag].
      simpl fired. rewrite (present_some _ _ _ Hp).
      by rewrite (col_some _ _ _ Hsm), (col_some _ _ _ Hp).
    + cbv zeta. rewrite bind_getitem_none by done. right. eexists. exists (columns df).
      split; [by destruct df|]. split; [|by left].
      simpl. rewrite (present_some _ _ _ Hp), (col_none _ _ Hsm). done.
  - rewrite (present_none _ _ Hp). left. exists (columns df).
    simpl. rewrite (present_none _ _ Hp). by destruct df.
Qed.

Lemma ran_flag_d05 (df : DataFrame) : ran lib D05 df (flag_d05 lib df).
Proof.
  unfold flag_d05. rewrite bind_has_column.
  destruct (columns df !! "gldas_precipitation") as [c_p|] eqn:Hp.
  - rewrite (present_some _ _ _ Hp).
    destruct (columns df !! "soil_moisture") as [c_sm|] eqn:Hsm.
    + repeat py_step. rewrite guarded_add_run. left. eexists. cbn [columns qflag].
      simpl fired. rewrite (present_some _ _ _ Hp).
      by rewrite (col_some _ _ _ Hsm), (col_some _ _ _ Hp).
    + cbv zeta. rewrite bind_getitem_none by done. right. eexists. exists (columns df).
      split; [by destruct df|]. split; [|by left].
      simpl. rewrite (present_some _ _ _ Hp), (col_none _ _ Hsm). done.
  - rewrite (present_none _ _ Hp). left. exists (columns df).
    simpl. rewrite (present_none _ _ Hp). by destruct df.
Qed.

Lemma flag9_mask_nil (d2 : list float) : flag9_mask lib [] d2 = [].
Proof. reflexivity. Qed.

Lemma ran_flag_d06 (df : DataFrame) : ran lib D06 df (flag_d06 lib df).
Proof.
  destruct (columns df !! "soil_moisture") as [c_sm|] eqn:Hsm.
  - destruct (columns df !! "deriv2") as [c_d2|] eqn:Hd2.
    + rewrite (flag_d06_run lib df c_sm c_d2) by done. left. eexists.
      simpl fired. rewrite (present_some _ _ _ Hd2).
      by rewrite (col_some _ _ _ Hsm), (col_some _ _ _ Hd2).
    + unfold flag_d06. repeat py_step.
      rewrite bind_getattr_none
        by (cbn [columns]; by rewrite lookup_insert_ne).
      right. do 2 eexists. split; [reflexivity|]. split; [|by right].
      simpl. by rewrite (present_none _ _ Hd2).
  - unfold flag_d06. rewrite bind_getitem_none by done.
    right. eexists. exists (columns df). split; [by destruct df|]. split; [|by left].
    simpl. rewrite (col_none _ _ Hsm).
    destruct (present _ _); [by rewrite flag9_mask_nil|done].
Qed.

Lemma ran_run (d : detector) (df : DataFrame) : ran lib d df (run lib d df).
Proof.
  destruct d; simpl;
    auto using ran_flag_c01, ran_flag_c02, ran_flag_c03, ran_flag_d01,
      ran_flag_d02, ran_flag_d03, ran_flag_d04, ran_flag_d05, ran_flag_d06.
Qed.

Lemma run_qflag (d : detector) (df : DataFrame) :
  qflag (state_of (run lib d df))
  = add_code (code d) (fired lib d (columns df)) (qflag df).
Proof.
  destruct (ran_run d df) as [[cols' ->]|(e & cols' & -> & -> & _)]; done.
Qed.

Lemma run_completes (d : detector) (df : DataFrame) :
  is_Some (columns df !! "soil_moisture") →
  (d = D06 → is_Some (columns df !! "deriv2")) →
  completes (run lib d df).
Proof.
  intros [c_sm Hsm] Hd2.
  destruct (ran_run d df) as [[cols' ->]|(e & cols' & _ & _ & [H|[-> H]])].
  - done.
  - congruence.
  - destruct (Hd2 eq_refl) as [c_d2 Hc]. congruence.
Qed.

End Ran.

(* ===================================================================== *)
(* 14. Adding codes: order and repetition                                *)
(* ===================================================================== *)

Lemma add_code_comm (c c' : Z) (i i' : list nat) (q : list (gset Z)) :
  add_code c i (add_code c' i' q) = add_code c' i' (add_code c i q).
Proof.
  apply list_eq. intros t. rewrite !add_code_lookup.
  destruct (q !! t) as [s|]; simpl; [|done]. f_equal.
  repeat case_bool_decide; try done.
  rewrite <- !(assoc_L (∪)). f_equal. apply (comm_L (∪)).
Qed.

Lemma add_code_idemp (c : Z) (i : list nat) (q : list (gset Z)) :
  add_code c i (add_code c i q) = add_code c i q.
Proof.
  apply list_eq. intros t. rewrite !add_code_lookup.
  destruct (q !! t) as [s|]; simpl; [|done]. f_equal.
  case_bool_decide; [|done].
  rewrite <- (assoc_L (∪)). f_equal. apply (idemp_L (∪)).
Qed.

Lemma add_code_grows (c : Z) (i : list nat) (q : list (gset Z)) :
  grows q (add_code c i q).
Proof.
  split; [apply add_code_length|].
  intros t s Hs. rewrite add_code_lookup, Hs. simpl.
  eexists. split; [done|]. case_bool_decide; [apply union_subseteq_l|done].
Qed.

Lemma grows_refl (q : list (gset Z)) : grows q q.
Proof. split; [done|]. intros t s Hs. by exists s. Qed.

Lemma grows_trans (q1 q2 q3 : list (gset Z)) :
  grows q1 q2 → grows q2 q3 → grows q1 q3.
Proof.
  intros [Hl1 H1] [Hl2 H2]. split; [congruence|].
  intros t s Hs. destruct (H1 t s Hs) as (s' & Hs' & Hsub).
  destruct (H2 t s' Hs') as (s'' & Hs'' & Hsub').
  exists s''. split; [done|]. by transitivity s'.
Qed.

Ltac in_names := unfold input_names, raw_fields; repeat constructor.

Section Order.
Variable lib : Library.

Lemma fired_ext (d : detector) (cols cols' : gmap string column) :
  (∀ n, n ∈ input_names → cols' !! n = cols !! n) →
  fired lib d cols' = fired lib d cols.
Proof.
  intros H. unfold fired, col, present.
  rewrite !(H "soil_moisture") by in_names.
  rewrite !(H "deriv2") by in_names.
  rewrite !(H "soil_temperature") by in_names.
  rewrite !(H "air_temperature") by in_names.
  rewrite !(H "gldas_soil_temperature") by in_names.
  rewrite !(H "precipitation") by in_names.
  rewrite !(H "gldas_precipitation") by in_names.
  reflexivity.
Qed.

Lemma add_all_ext (cols cols' : gmap string column) (l : list detector)
    (q : list (gset Z)) :
  (∀ n, n ∈ input_names → cols' !! n = cols !! n) →
  add_all lib cols' l q = add_all lib cols l q.
Proof.
  intros H. unfold add_all. revert q. induction l as [|d l IH]; intros q; simpl.
  - done.
  - by rewrite IH, (fired_ext d cols cols').
Qed.

Lemma add_all_perm (cols : gmap string column) (l l' : list detector)
    (q : list (gset Z)) :
  l ≡ₚ l' → add_all lib cols l q = add_all lib cols l' q.
Proof.
  intros Hp. revert q. unfold add_all.
  induction Hp as [|d l l' _ IH|d d' l|l1 l2 l3 _ IH1 _ IH2]; intros q; simpl.
  - done.
  - apply IH.
  - by rewrite add_code_comm.
  - by rewrite IH1, IH2.
Qed.

Lemma add_all_grows (cols : gmap string column) (l : list detector)
    (q : list (gset Z)) :
  grows q (add_all lib cols l q).
Proof.
  unfold add_all. revert q. induction l as [|d l IH]; intros q; simpl.
  - apply grows_refl.
  - eapply grows_trans; [apply add_code_grows|apply IH].
Qed.

(* a run of rules on a table that has soil_moisture and deriv2 *)
Lemma run_all_qflag (l : list detector) (df : DataFrame) :
  is_Some (columns df !! "soil_moisture") →
  is_Some (columns df !! "deriv2") →
  completes (run_all lib l df)
  ∧ qflag (state_of (run_all lib l df))
    = add_all lib (columns df) l (qflag df).
Proof.
  revert df. induction l as [|d l IH]; intros df Hsm Hd2; simpl.
  - done.
  - pose proof (run_completes lib d df Hsm (λ _, Hd2)) as Hc.
    pose proof (run_qflag lib d df) as Hq.
    pose proof (keeps_run lib d df) as Hk.
    unfold mbind, py_bind.
    destruct (run lib d df) as [[] df1|e df1]; simpl in *; [|done].
    destruct (IH df1) as [Hc1 Hq1].
    + rewrite Hk by in_names. done.
    + rewrite Hk by in_names. done.
    + split; [done|]. rewrite Hq1, Hq.
      unfold add_all at 2. simpl. fold (add_all lib (columns df) l).
      by apply add_all_ext.
Qed.

Lemma bind_ret_unit (m : py unit) (df : DataFrame) : (m;; mret ()) df = m df.
Proof.
  unfold mbind, py_bind. by destruct (m df) as [[] df'|e df'].
Qed.

Lemma bind_cong {A B} (m : py A) (f g : A → py B) (df : DataFrame) :
  (∀ a df', f a df' = g a df') → (m ≫= f) df = (m ≫= g) df.
Proof.
  intros H. unfold mbind, py_bind. by destruct (m df) as [a df'|e df'].
Qed.

Lemma flagit_run_all (df : DataFrame) :
  flagit lib df = run_all lib pipeline df.
Proof.
  unfold flagit, pipeline. simpl run_all.
  repeat (apply bind_cong; intros _ ?).
  symmetry. apply bind_ret_unit.
Qed.

End Order.

(* ===================================================================== *)
(* 15. The rules as a whole                                              *)
(* ===================================================================== *)

Section Whole.
Variable lib : Library.

Lemma run_grows (d : detector) (df : DataFrame) :
  grows (qflag df) (qflag (state_of (run lib d df))).
Proof. rewrite run_qflag. apply add_code_grows. Qed.

Lemma run_all_grows (l : list detector) (df : DataFrame) :
  grows (qflag df) (qflag (state_of (run_all lib l df))).
Proof.
  revert df. induction l as [|d l IH]; intros df; simpl.
  - apply grows_refl.
  - pose proof (run_grows d df) as Hd. unfold mbind, py_bind.
    destruct (run lib d df) as [[] df1|e df1]; simpl in *; [|done].
    eapply grows_trans; [exact Hd|apply IH].
Qed.

Lemma raw_fields_inputs (name : string) : name ∈ raw_fields → name ∈ input_names.
Proof. intros H. unfold input_names. by apply elem_of_cons; right. Qed.

Lemma apply_savgol_run (df : DataFrame) (c_sm : column) :
  columns df !! "soil_moisture" = Some c_sm →
  apply_savgol lib df
  = Return () (mkDataFrame
                 (<["deriv2" := FloatCol (savgol lib (values c_sm) 3 2 2)]>
                    (<["deriv1" := FloatCol (savgol lib (values c_sm) 3 2 1)]>
                       (columns df)))
                 (qflag df)).
Proof. intros Hsm. unfold apply_savgol. repeat py_step. reflexivity. Qed.

End Whole.

(** C8: running any detector (or the whole pipeline) leaves soil_moisture
    and every other raw input field as it was, keeps the number of rows,
    and only adds codes: every row's final qflag set contains its
    initial one. *)
Theorem detectors_only_add_codes (lib : Library) (d : detector) (df : DataFrame) :
  let df' := state_of (run lib d df) in
  let df'' := state_of (flagit lib df) in
  ((∀ name, name ∈ raw_fields → columns df' !! name = columns df !! name)
   ∧ grows (qflag df) (qflag df'))
  ∧ ((∀ name, name ∈ raw_fields → columns df'' !! name = columns df !! name)
     ∧ grows (qflag df) (qflag df'')).
Proof.
  cbv zeta. rewrite flagit_run_all. repeat split.
  - intros name Hn. by apply keeps_run, raw_fields_inputs.
  - apply run_grows.
  - apply run_grows.
  - intros name Hn. by apply keeps_run_all, raw_fields_inputs.
  - apply run_all_grows.
  - apply run_all_grows.
Qed.

(** C9: on a table that has soil_moisture and the deriv2 column of the
    derivative engine, running a detector twice leaves the same qflag
    sets as running it once, and running the detectors in any order
    leaves the same qflag sets; in particular every permutation of the
    pipeline completes with the qflag sets of flagit. *)
Theorem detectors_idempotent_and_commute (lib : Library) (df : DataFrame) :
  is_Some (columns df !! "soil_moisture") →
  is_Some (columns df !! "deriv2") →
  (∀ d, qflag (state_of (run lib d (state_of (run lib d df))))
        = qflag (state_of (run lib d df)))
  ∧ (∀ l l', l ≡ₚ l' →
       qflag (state_of (run_all lib l df))
       = qflag (state_of (run_all lib l' df)))
  ∧ (∀ l, l ≡ₚ pipeline →
       completes (run_all lib l df)
       ∧ qflag (state_of (run_all lib l df))
         = qflag (state_of (flagit lib df))).
Proof.
  intros Hsm Hd2.
  assert (Hperm : ∀ l l', l ≡ₚ l' →
            qflag (state_of (run_all lib l df))
            = qflag (state_of (run_all lib l' df))).
  { intros l l' Hp.
    destruct (run_all_qflag lib l df Hsm Hd2) as [_ ->].
    destruct (run_all_qflag lib l' df Hsm Hd2) as [_ ->].
    by apply add_all_perm. }
  split; [|split].
  - intros d. rewrite !run_qflag.
    rewrite (fired_ext lib d (columns df)) by apply keeps_run.
    apply add_code_idemp.
  - exact Hperm.
  - intros l Hp. split.
    + apply (run_all_qflag lib l df Hsm Hd2).
    + rewrite flagit_run_all. by apply Hperm.
Qed.

Lemma detectors_idempotent_and_commute_witness :
  let df := state_of (apply_savgol reference (table plateau [("precipitation", dry 25)])) in
  is_Some (columns df !! "soil_moisture")
  ∧ is_Some (columns df !! "deriv2")
  ∧ (∀ d, qflag (state_of (run reference d (state_of (run reference d df))))
          = qflag (state_of (run reference d df)))
  ∧ (∀ l l', l ≡ₚ l' →
       qflag (state_of (run_all reference l df))
       = qflag (state_of (run_all reference l' df)))
  ∧ (∀ l, l ≡ₚ pipeline →
       completes (run_all reference l df)
       ∧ qflag (state_of (run_all reference l df))
         = qflag (state_of (flagit reference df))).
Proof.
  cbv zeta.
  assert (Hsm : is_Some (columns (state_of (apply_savgol reference
                  (table plateau [("precipitation", dry 25)]))) !! "soil_moisture")).
  { eexists. vm_compute. reflexivity. }
  assert (Hd2 : is_Some (columns (state_of (apply_savgol reference
                  (table plateau [("precipitation", dry 25)]))) !! "deriv2")).
  { eexists. vm_compute. reflexivity. }
  split; [exact Hsm|]. split; [exact Hd2|].
  exact (detectors_idempotent_and_commute reference _ Hsm Hd2).
Defined.

Lemma add_code_index_lookup (c : Z) (mask : list bool) (q : list (gset Z))
    (t : nat) :
  add_code c (index_of mask) q !! t
  = (λ s, if ison mask t then s ∪ {[c]} else s) <$> q !! t.
Proof.
  rewrite add_code_lookup. destruct (q !! t) as [s|]; simpl; [|done]. f_equal.
  destruct (ison mask t) eqn:E.
  - by rewrite bool_decide_eq_true_2 by (by apply index_of_elem).
  - rewrite bool_decide_eq_false_2; [done|].
    rewrite index_of_elem. congruence.
Qed.

(** C10: the saturation-point rule treats a threshold of 0 like an absent
    one: flag_c03 with hwsd = 0.0 returns at once and leaves the table, so
    no row gets code 3; a threshold that is not zero activates the rule,
    which then adds code 3 exactly at the rows whose soil_moisture exceeds
    it. *)
Theorem flag_c03_zero_is_absent (df : DataFrame) :
  (∀ h, feq h 0%float = true → flag_c03 (Some h) df = Return () df)
  ∧ flag_c03 (Some 0%float) df = flag_c03 None df
  ∧ (∀ h c_sm, truthy h = true →
       columns df !! "soil_moisture" = Some c_sm →
       completes (flag_c03 (Some h) df)
       ∧ ∀ t s, qflag df !! t = Some s →
           qflag (state_of (flag_c03 (Some h) df)) !! t
           = Some (if fgt (at_ (values c_sm) t) h then s ∪ {[3]} else s)).
Proof.
  split; [|split; [done|]].
  - intros h Hh. unfold flag_c03, not_, truthy. by rewrite Hh.
  - intros h c_sm Hh Hsm. unfold flag_c03, not_. rewrite Hh. cbn [negb].
    erewrite bind_getattr by eassumption. cbv zeta. rewrite guarded_add_run.
    split; [done|]. intros t s Hs. cbn [state_of qflag].
    by rewrite add_code_index_lookup, Hs, ison_sgt_c.
Qed.

(** C5, as the code has it: on a table with the soil_moisture column and
    any optional columns, every rule but the spike rule completes; the
    spike rule and flagit complete when the deriv2 column is there, as it
    is once apply_savgol has run.  A rule adds its code at the rows that
    match its conditions and at no other row, so a rule whose conditions
    match no row leaves every qflag set as it was. *)
Theorem rules_complete (lib : Library) (df : DataFrame) :
  is_Some (columns df !! "soil_moisture") →
  (∀ d, d ≠ D06 → completes (run lib d df))
  ∧ (is_Some (columns df !! "deriv2") →
       completes (flag_d06 lib df) ∧ completes (flagit lib df))
  ∧ completes ((apply_savgol lib;; flag_d06 lib) df)
  ∧ completes ((apply_savgol lib;; flagit lib) df)
  ∧ (∀ d t s, qflag df !! t = Some s →
       qflag (state_of (run lib d df)) !! t
       = Some (if bool_decide (t ∈ fired lib d (columns df))
               then s ∪ {[code d]} else s))
  ∧ (∀ d, fired lib d (columns df) = [] →
       qflag (state_of (run lib d df)) = qflag df).
Proof.
  intros Hsm.
  assert (Hboth : ∀ df, is_Some (columns df !! "soil_moisture") →
            is_Some (columns df !! "deriv2") →
            completes (flag_d06 lib df) ∧ completes (flagit lib df)).
  { intros df0 H1 H2. split.
    - by apply (run_completes lib D06).
    - rewrite flagit_run_all. by apply run_all_qflag. }
  assert (Hsav : completes ((apply_savgol lib;; flag_d06 lib) df)
                 ∧ completes ((apply_savgol lib;; flagit lib) df)).
  { destruct Hsm as [c_sm Hsm]. unfold mbind, py_bind.
    rewrite (apply_savgol_run lib df c_sm Hsm).
    apply Hboth; cbn [columns].
    - rewrite !lookup_insert_ne by done. by exists c_sm.
    - rewrite lookup_insert_eq. by eexists. }
  destruct Hsav as [Hsav1 Hsav2].
  split; [|split; [|split; [done|split; [done|split]]]].
  - intros d Hd. by apply run_completes.
  - by apply Hboth.
  - intros d t s Hs. by rewrite run_qflag, add_code_lookup, Hs.
  - intros d Hd. by rewrite run_qflag, Hd.
Qed.

Lemma rules_complete_witness :
  let df := table rising [("precipitation", dry 5)] in
  is_Some (columns df !! "soil_moisture")
  ∧ (∀ d, d ≠ D06 → completes (run reference d df))
  ∧ (is_Some (columns df !! "deriv2") →
       completes (flag_d06 reference df) ∧ completes (flagit reference df))
  ∧ completes ((apply_savgol reference;; flag_d06 reference) df)
  ∧ completes ((apply_savgol reference;; flagit reference) df)
  ∧ (∀ d t s, qflag df !! t = Some s →
       qflag (state_of (run reference d df)) !! t
       = Some (if bool_decide (t ∈ fired reference d (columns df))
               then s ∪ {[code d]} else s))
  ∧ (∀ d, fired reference d (columns df) = [] →
       qflag (state_of (run reference d df)) = qflag df).
Proof.
  cbv zeta.
  assert (Hsm : is_Some (columns (table rising [("precipitation", dry 5)])
                           !! "soil_moisture")).
  { eexists. vm_compute. reflexivity. }
  split; [exact Hsm|].
  exact (rules_complete reference _ Hsm).
Defined.

(* C5 as stated fails: a table with soil_moisture and the set-valued qflag
   column only makes the spike rule, and with it flagit, raise. *)
Lemma flagit_raises_without_deriv2 :
  (∃ df', flag_d06 reference (table rising []) = Raise (AttributeError "deriv2") df')
  ∧ (∃ df', flagit reference (table rising [])
            = Raise (AttributeError "deriv2") df').
Proof.
  split; eexists; vm_compute; reflexivity.
Qed.

(* ===================================================================== *)
(* 16. The rise rules                                                    *)
(* ===================================================================== *)

Lemma at_tabulate (f : nat → float) (n t : nat) :
  (t < n)%nat → at_ (map f (seq 0 n)) t = f t.
Proof.
  intros Ht. rewrite at_lookup, list_lookup_fmap, lookup_seq_lt by done.
  reflexivity.
Qed.


Section RiseFacts.
Variable lib : Library.



Lemma flag_d04_run (df : DataFrame) (c_sm c_p : column) :
  columns df !! "soil_moisture" = Some c_sm →
  columns df !! "precipitation" = Some c_p →
  flag_d04 lib df
  = Return () (mkDataFrame
      (<["rise1h" := FloatCol (diff 1 (values c_sm))]>
         (<["rise24h" := FloatCol (diff 24 (values c_sm))]>
            (<["std_x2" := FloatCol (std_x2_of lib (values c_sm))]>
               (columns df))))
      (add_code 7 (index_of (rise_mask lib (values c_sm) (values c_p)))
         (qflag df))).
Proof.
  intros Hsm Hp. unfold flag_d04. rewrite bind_has_column.
  rewrite (present_some _ _ _ Hp). repeat py_step. reflexivity.
Qed.


(* the mask of a rise rule, row by row *)
Lemma rise_mask_at (sm precip_signal : list float) (t : nat) :
  ison (rise_mask lib sm precip_signal) t
  = rise_at sm (std_x2_of lib sm) precip_signal t.
Proof.
  unfold rise_mask, rise_at.
  rewrite !ison_sand, ison_sgt_c, ison_sgt, ison_slt_c.
  by rewrite (at_diff 1), (at_diff 24).
Qed.

End RiseFacts.

(** C1: on a table with the precipitation column, the in-situ rise rule
    completes and adds code 7 at exactly the rows t where rise1h[t] > 0,
    rise24h[t] > std_x2[t] and precipitation[t] < 0.2, with
    rise1h[t] = soil_moisture[t] - soil_moisture[t-1],
    rise24h[t] = soil_moisture[t] - soil_moisture[t-24] and the current
    hour's precipitation as the signal; without the precipitation column
    it returns the table as it is, so code 7 is added nowhere. *)
Theorem flag_d04_flags_unexplained_rise (lib : Library) (df : DataFrame) :
  (∀ c_sm c_p,
     columns df !! "soil_moisture" = Some c_sm →
     columns df !! "precipitation" = Some c_p →
     let df' := state_of (flag_d04 lib df) in
     completes (flag_d04 lib df)
     ∧ ∀ t s, qflag df !! t = Some s →
         qflag df' !! t
         = Some (if rise_at (values c_sm) (col (columns df') "std_x2")
                      (values c_p) t
                 then s ∪ {[7]} else s))
  ∧ (columns df !! "precipitation" = None → flag_d04 lib df = Return () df).
Proof.
  split.
  - intros c_sm c_p Hsm Hp. cbv zeta.
    rewrite (flag_d04_run lib df c_sm c_p Hsm Hp).
    split; [done|]. intros t s Hs. cbn [state_of qflag columns].
    rewrite add_code_index_lookup, Hs, rise_mask_at. simpl. do 2 f_equal.
    unfold col. rewrite !lookup_insert_ne by done.
    by rewrite lookup_insert_eq.
  - intros Hp. unfold flag_d04. rewrite bind_has_column.
    by rewrite (present_none _ _ Hp).
Qed.

Lemma flag_d04_flags_unexplained_rise_witness :
  let df := table jump [("precipitation", dry 27)] in
  let df' := state_of (flag_d04 reference df) in
  columns df !! "soil_moisture" = Some (FloatCol jump)
  ∧ columns df !! "precipitation" = Some (FloatCol (dry 27))
  ∧ qflag df !! 25%nat = Some ∅
  ∧ rise_at jump (col (columns df') "std_x2") (dry 27) 25 = true
  ∧ qflag df' !! 25%nat = Some (∅ ∪ {[7]}).
Proof.
  cbv zeta.
  assert (Hsm : columns (table jump [("precipitation", dry 27)]) !! "soil_moisture"
                = Some (FloatCol jump)) by (vm_compute; reflexivity).
  assert (Hp : columns (table jump [("precipitation", dry 27)]) !! "precipitation"
               = Some (FloatCol (dry 27))) by (vm_compute; reflexivity).
  assert (Hq : qflag (table jump [("precipitation", dry 27)]) !! 25%nat = Some ∅)
    by (vm_compute; reflexivity).
  assert (Hrise : rise_at jump
            (col (columns (state_of (flag_d04 reference
                    (table jump [("precipitation", dry 27)])))) "std_x2")
            (dry 27) 25 = true) by (vm_compute; reflexivity).
  repeat (split; [assumption|]).
  destruct (proj1 (flag_d04_flags_unexplained_rise reference
                     (table jump [("precipitation", dry 27)]))
              (FloatCol jump) (FloatCol (dry 27)) Hsm Hp) as [_ H].
  specialize (H 25%nat ∅ Hq). cbn [values] in H. rewrite Hrise in H. exact H.
Defined.




(* ===================================================================== *)
(* 17. The spike rule, row by row                                        *)
(* ===================================================================== *)

Section SpikeFacts.
Variable lib : Library.

Lemma fround_nan (d : nat) : fround d NaN = NaN.
Proof. unfold fround. by rewrite fmul_nan_l, fdiv_nan_l. Qed.

Lemma length_rolling_apply (w m : nat) (c : bool) (f : list float → float)
    (s : list float) :
  length (rolling_apply w m c f s) = length s.
Proof. unfold rolling_apply. by rewrite length_map, length_seq. Qed.

Lemma length_criteria1 (sm : list float) : length (criteria1_of sm) = length sm.
Proof.
  unfold criteria1_of, sdiv.
  rewrite length_map, length_shift, length_zip_with, length_shift. lia.
Qed.

Lemma length_criteria2 (d2 : list float) : length (criteria2_of d2) = length d2.
Proof.
  unfold criteria2_of, sdiv.
  rewrite !length_map, length_shift, length_zip_with, length_shift. lia.
Qed.

Lemma length_criteria3 (sm : list float) : length (criteria3_of lib sm) = length sm.
Proof.
  unfold criteria3_of, sdiv, rolling_weighted_mean.
  rewrite length_zip_with, !length_map, length_rolling_apply, length_seq. lia.
Qed.

Lemma length_criteria4 (sm : list float) : length (criteria4_of sm) = length sm.
Proof. unfold criteria4_of. by rewrite length_shift, length_rolling_apply. Qed.

Lemma length_spike_2h (sm : list float) : length (spike_2h_of sm) = length sm.
Proof.
  unfold spike_2h_of, sgt_c. by rewrite length_map, length_shift, length_criteria4.
Qed.

Lemma length_spike (sm d2 : list float) :
  length d2 = length sm → length (spike_of lib sm d2) = length sm.
Proof.
  intros H. unfold spike_of, sand, sor, sgt_c, slt_c.
  rewrite !length_zip_with, !length_map, length_criteria1, length_criteria2,
    length_criteria3, length_criteria4, length_spike_2h. lia.
Qed.

(* criteria1 at row t is the ratio of the value at t to the one before *)
Lemma criteria1_at (sm : list float) (t : nat) :
  at_ (criteria1_of sm) t = fround 3 (fdiv (at_ sm t) (lag 1 sm t)).
Proof.
  unfold criteria1_of. rewrite at_map by done. f_equal.
  destruct (decide (t < length sm)%nat) as [Ht|Ht].
  - rewrite (at_shift_fwd 1)
      by (unfold sdiv; rewrite length_zip_with, length_shift; lia).
    unfold lag. destruct (t <? 1)%nat eqn:E; [by rewrite fdiv_nan_r|].
    apply Nat.ltb_ge in E. unfold sdiv.
    rewrite at_zip_with by (apply fdiv_nan_l || apply fdiv_nan_r).
    rewrite (at_shift_back 1) by lia. do 2 f_equal. lia.
  - rewrite at_shift_fwd_ge
      by (unfold sdiv; rewrite length_zip_with, length_shift; lia).
    rewrite (at_ge sm t) by lia. by rewrite fdiv_nan_l.
Qed.

(* criteria2 at row t is the absolute ratio of deriv2 before t to deriv2
   after t *)
Lemma criteria2_at (d2 : list float) (t : nat) :
  at_ (criteria2_of d2) t
  = fround 3 (fabs (fdiv (lag 1 d2 t) (at_ d2 (t + 1)))).
Proof.
  unfold criteria2_of. rewrite !at_map by done. do 2 f_equal.
  destruct (decide (t < length d2)%nat) as [Ht|Ht].
  - rewrite (at_shift_fwd 1)
      by (unfold sdiv; rewrite length_zip_with, length_shift; lia).
    unfold lag. destruct (t <? 1)%nat eqn:E; [by rewrite fdiv_nan_l|].
    apply Nat.ltb_ge in E. unfold sdiv.
    rewrite at_zip_with by (apply fdiv_nan_l || apply fdiv_nan_r).
    rewrite (at_shift_back 2) by lia. do 2 f_equal. lia.
  - rewrite at_shift_fwd_ge
      by (unfold sdiv; rewrite length_zip_with, length_shift; lia).
    rewrite (at_ge d2 (t + 1)) by lia. by rewrite fdiv_nan_r.
Qed.

Lemma length_slice (lo hi : nat) (s : list float) :
  length (slice lo hi s) = (Nat.min hi (length s) - lo)%nat.
Proof. unfold slice. by rewrite length_drop, length_take. Qed.

Lemma count_notna_le (w : list float) : (count_notna w ≤ length w)%nat.
Proof. unfold count_notna, dropna. apply length_filter. Qed.

Lemma length_prep (s : list float) : length (prep s) = length s.
Proof. unfold prep. apply length_map. Qed.

(* criteria3 is missing where the centered window of 25 is not full *)
Lemma criteria3_edge (sm : list float) (t : nat) :
  (t < 12 ∨ length sm < t + 13)%nat → at_ (criteria3_of lib sm) t = NaN.
Proof.
  intros Hedge. unfold criteria3_of, sdiv.
  rewrite at_zip_with by (apply fdiv_nan_l || apply fdiv_nan_r).
  rewrite at_map by done.
  destruct (decide (t < length sm)%nat) as [Ht|Ht].
  - unfold rolling_apply. rewrite at_tabulate by done. cbv zeta.
    pose proof (count_notna_le (window_at 25 true (prep sm) t)) as Hle.
    unfold window_at in *. rewrite length_slice, length_prep in Hle.
    change ((25 - 1) / 2)%nat with 12%nat in *.
    destruct (25 <=? _)%nat eqn:E; [apply Nat.leb_le in E; lia|].
    by rewrite fdiv_nan_l.
  - rewrite at_ge by (rewrite length_rolling_apply; lia). by rewrite fdiv_nan_l.
Qed.



Lemma criteria4_last (sm : list float) (t : nat) :
  (length sm ≤ t + 1)%nat → at_ (criteria4_of sm) t = NaN.
Proof.
  intros Ht. unfold criteria4_of. rewrite (at_shift_back 1) by lia.
  apply at_ge. rewrite length_rolling_apply. lia.
Qed.


Lemma criteria4_lagged (sm : list float) (t : nat) :
  at_ (shift 1 (criteria4_of sm)) t = lag 1 (criteria4_of sm) t.
Proof.
  destruct (decide (t < length sm)%nat) as [Ht|Ht].
  - apply (at_shift_fwd 1). by rewrite length_criteria4.
  - rewrite at_shift_fwd_ge by (rewrite length_criteria4; lia).
    unfold lag. destruct (t <? 1)%nat; [done|].
    symmetry. apply criteria4_last. lia.
Qed.

Lemma spike_2h_of_at (sm : list float) (t : nat) :
  ison (spike_2h_of sm) t = fgt (lag 1 (criteria4_of sm) t) 1.1%float.
Proof.
  unfold spike_2h_of. by rewrite ison_sgt_c, criteria4_lagged.
Qed.

Lemma spike_of_at (sm d2 : list float) (t : nat) :
  ison (spike_of lib sm d2) t
  = (abrupt_change (at_ (criteria1_of sm) t)
     || fgt (lag 1 (criteria4_of sm) t) 1.1%float)
    && symmetric (at_ (criteria2_of d2) t)
    && flt (at_ (criteria3_of lib sm) t) 1%float
    && fgt (at_ (criteria4_of sm) t) 0%float.
Proof.
  unfold spike_of, abrupt_change, symmetric.
  rewrite !ison_sand.
  rewrite ison_sor
    by (unfold sor, sgt_c, slt_c;
        rewrite length_zip_with, !length_map, length_criteria1, length_spike_2h;
        lia).
  rewrite ison_sor by (unfold sgt_c, slt_c; by rewrite !length_map).
  by rewrite ison_of_bool, spike_2h_of_at, !ison_sgt_c, !ison_slt_c.
Qed.

Lemma spike_of_last (sm d2 : list float) (t : nat) :
  (length sm ≤ t + 1)%nat → ison (spike_of lib sm d2) t = false.
Proof.
  intros Ht. rewrite spike_of_at, (criteria4_last sm t Ht).
  apply andb_false_r.
Qed.

Lemma spike_of_edge (sm d2 : list float) (t : nat) :
  (t < 12 ∨ length sm < t + 13)%nat → ison (spike_of lib sm d2) t = false.
Proof.
  intros Ht. rewrite spike_of_at, (criteria3_edge sm t Ht).
  by rewrite flt_nan_l, andb_false_r.
Qed.

Lemma spike_lagged (sm d2 : list float) (t : nat) :
  length d2 = length sm →
  ison (sgt_c (shift 1 (map of_bool (spike_of lib sm d2))) 0%float) t
  = match t with
    | O => false
    | S p => ison (spike_of lib sm d2) p
    end.
Proof.
  intros Hlen. rewrite ison_sgt_c.
  destruct (decide (t < length sm)%nat) as [Ht|Ht].
  - rewrite (at_shift_fwd 1) by (by rewrite length_map, length_spike).
    unfold lag. destruct t as [|p]; [done|].
    change (S p <? 1)%nat with false. cbv iota.
    replace (S p - 1)%nat with p by lia.
    by rewrite <- ison_sgt_c, ison_of_bool.
  - rewrite at_shift_fwd_ge by (rewrite length_map, length_spike; lia).
    destruct t as [|p]; [done|]. symmetry. apply spike_of_last. lia.
Qed.

(* the mask of flag_d06: a spike at t, or a spike at t-1 that lasts *)
Lemma flag9_mask_at (sm d2 : list float) (t : nat) :
  length d2 = length sm →
  ison (flag9_mask lib sm d2) t
  = ison (spike_of lib sm d2) t
    || (match t with
        | O => false
        | S p => ison (spike_of lib sm d2) p
        end && ison (spike_2h_of sm) t).
Proof.
  intros Hlen. unfold flag9_mask.
  rewrite ison_sor.
  - by rewrite ison_sand, !ison_of_bool, spike_lagged.
  - unfold sand, sgt_c.
    rewrite length_zip_with, !length_map, length_shift, length_map,
      length_spike, length_spike_2h by done. lia.
Qed.

(* the columns flag_d06 leaves in the table *)
Lemma d06_cells (sm d2 : list float) (cols : gmap string column) :
  col (d06_columns lib sm d2 cols) "criteria1" = criteria1_of sm
  ∧ col (d06_columns lib sm d2 cols) "criteria2" = criteria2_of d2
  ∧ col (d06_columns lib sm d2 cols) "criteria3" = criteria3_of lib sm
  ∧ col (d06_columns lib sm d2 cols) "criteria4" = criteria4_of sm.
Proof.
  unfold col, d06_columns. repeat split;
    rewrite !lookup_insert_ne by done; by rewrite lookup_insert_eq.
Qed.

Lemma spike_at_table (sm d2 : list float) (cols : gmap string column)
    (q : list (gset Z)) (t : nat) :
  spike_at (mkDataFrame (d06_columns lib sm d2 cols) q) t = ison (spike_of lib sm d2) t
  ∧ spike_2h_at (mkDataFrame (d06_columns lib sm d2 cols) q) t
    = ison (spike_2h_of sm) t.
Proof.
  destruct (d06_cells sm d2 cols) as (H1 & H2 & H3 & H4).
  unfold spike_at, spike_2h_at, cell. cbn [columns].
  by rewrite H1, H2, H3, H4, spike_of_at, spike_2h_of_at.
Qed.


End SpikeFacts.



(** C6, as the code has it: on a table with deriv2 computed, the spike
    rule never adds code 9 at any of the first 12 or the last 11 rows of
    the series: criteria3 is missing wherever the centered window of 25
    samples is not full, so neither a spike at such a row nor the trailing
    hour of a spike at the row before it can fire there. *)
Theorem flag_d06_spares_the_edges (lib : Library) (df : DataFrame)
    (c_sm c_d2 : column)
    (t : nat) (s : gset Z) :
  columns df !! "soil_moisture" = Some c_sm →
  columns df !! "deriv2" = Some c_d2 →
  length (values c_d2) = length (values c_sm) →
  qflag df !! t = Some s →
  (t < 12 ∨ length (values c_sm) ≤ t + 11)%nat →
  qflag (state_of (flag_d06 lib df)) !! t = Some s.
Proof.
  intros Hsm Hd2 Hlen Hs Hedge.
  rewrite (flag_d06_run lib df c_sm c_d2 Hsm Hd2). cbn [state_of qflag].
  rewrite add_code_index_lookup, Hs, flag9_mask_at by done.
  rewrite spike_of_edge by lia.
  destruct t as [|p]; [done|].
  by rewrite spike_of_edge by lia.
Qed.

Lemma flag_d06_spares_the_edges_witness :
  let df := state_of (apply_savgol reference (table plateau [])) in
  columns df !! "soil_moisture" = Some (FloatCol plateau)
  ∧ columns df !! "deriv2" = Some (FloatCol (savgol reference plateau 3 2 2))
  ∧ length (savgol reference plateau 3 2 2) = length plateau
  ∧ qflag df !! 14%nat = Some ∅
  ∧ (14 < 12 ∨ length plateau ≤ 14 + 11)%nat
  ∧ qflag (state_of (flag_d06 reference df)) !! 14%nat = Some ∅.
Proof.
  cbv zeta.
  assert (Hsm : columns (state_of (apply_savgol reference (table plateau [])))
                  !! "soil_moisture" = Some (FloatCol plateau))
    by (vm_compute; reflexivity).
  assert (Hd2 : columns (state_of (apply_savgol reference (table plateau [])))
                  !! "deriv2" = Some (FloatCol (savgol reference plateau 3 2 2)))
    by (vm_compute; reflexivity).
  assert (Hlen : length (savgol reference plateau 3 2 2) = length plateau)
    by (vm_compute; reflexivity).
  assert (Hs : qflag (state_of (apply_savgol reference (table plateau []))) !! 14%nat
               = Some ∅) by (vm_compute; reflexivity).
  assert (Hedge : (14 < 12 ∨ length plateau ≤ 14 + 11)%nat)
    by (right; vm_compute; lia).
  repeat (split; [assumption|]).
  exact (flag_d06_spares_the_edges reference _ (FloatCol plateau)
           (FloatCol (savgol reference plateau 3 2 2)) 14 ∅ Hsm Hd2 Hlen Hs Hedge).
Defined.

(* C6 as stated fails: in a series of 25 hours with a plateau at hours 12
   and 13, hour 13 is among the last 12 and gets code 9 as the trailing
   hour of the spike at hour 12. *)
Lemma flag_d06_flags_trailing_hour_near_the_end :
  let df := state_of (apply_savgol reference (table plateau [])) in
  length plateau = 25%nat
  ∧ (length plateau - 12 ≤ 13)%nat
  ∧ qflag df !! 13%nat = Some ∅
  ∧ qflag (state_of (flag_d06 reference df)) !! 13%nat = Some {[9]}.
Proof. repeat split; vm_compute; reflexivity. Qed.

(* ===================================================================== *)
(* 18. criteria1 and criteria2                                           *)
(* ===================================================================== *)

Section Criteria.
Variable lib : Library.

(* flag_d06 stores criteria1 before it reads deriv2 *)
Lemma flag_d06_criteria1 (df : DataFrame) (c_sm : column) :
  columns df !! "soil_moisture" = Some c_sm →
  col (columns (state_of (flag_d06 lib df))) "criteria1"
  = criteria1_of (values c_sm).
Proof.
  intros Hsm. destruct (columns df !! "deriv2") as [c_d2|] eqn:Hd2.
  - rewrite (flag_d06_run lib df c_sm c_d2 Hsm Hd2). cbn [state_of columns].
    apply d06_cells.
  - unfold flag_d06. repeat py_step.
    rewrite bind_getattr_none by (cbn [columns]; by rewrite lookup_insert_ne).
    cbn [state_of columns]. unfold col. by rewrite lookup_insert_eq.
Qed.

(* the spike column, read as the code reads it (df.spike > 0), row by row *)
Lemma spike_cell (df : DataFrame) (c_sm c_d2 : column) (t : nat) :
  columns df !! "soil_moisture" = Some c_sm →
  columns df !! "deriv2" = Some c_d2 →
  let df' := state_of (flag_d06 lib df) in
  fgt (cell df' "spike" t) 0%float
  = (abrupt_change (cell df' "criteria1" t) || spike_2h_at df' t)
    && symmetric (cell df' "criteria2" t)
    && flt (cell df' "criteria3" t) 1%float
    && fgt (cell df' "criteria4" t) 0%float.
Proof.
  intros Hsm Hd2. cbv zeta.
  rewrite (flag_d06_run lib df c_sm c_d2 Hsm Hd2). cbn [state_of].
  destruct (spike_at_table lib (values c_sm) (values c_d2) (columns df)
              (add_code 9 (index_of (flag9_mask lib (values c_sm)
                                       (values c_d2))) (qflag df)) t)
    as [Hspike _].
  unfold spike_at in Hspike. rewrite Hspike.
  unfold cell, col, d06_columns. cbn [columns].
  rewrite lookup_insert_eq. cbn [from_option values].
  by rewrite <- ison_sgt_c, ison_of_bool.
Qed.

End Criteria.

Lemma lag_one (s : list float) (t : nat) :
  (1 ≤ t)%nat → lag 1 s t = at_ s (t - 1).
Proof.
  intros Ht. unfold lag.
  by destruct (t <? 1)%nat eqn:E; [apply Nat.ltb_lt in E; lia|].
Qed.

(** C3, as the code has it: at every row t >= 1, criteria1[t] equals
    soil_moisture[t] / soil_moisture[t-1] rounded to 3 decimals - the
    value at t over the value before it, divided and rounded in binary64
    as numpy does - and the abrupt-change test
    (df.criteria1 > 1.15) | (df.criteria1 < 0.85), the first operand of
    the spike column, holds at t exactly when this rounded ratio is
    > 1.15 or < 0.85. *)
Theorem criteria1_is_ratio_to_previous (lib : Library) (df : DataFrame)
    (c_sm : column) (t : nat) :
  columns df !! "soil_moisture" = Some c_sm →
  (1 ≤ t)%nat →
  let df' := state_of (flag_d06 lib df) in
  let r := fround 3 (fdiv (at_ (values c_sm) t) (at_ (values c_sm) (t - 1))) in
  cell df' "criteria1" t = r
  ∧ (is_Some (columns df !! "deriv2") →
     fgt (cell df' "spike" t) 0%float
     = ((fgt r 1.15%float || flt r 0.85%float) || spike_2h_at df' t)
       && symmetric (cell df' "criteria2" t)
       && flt (cell df' "criteria3" t) 1%float
       && fgt (cell df' "criteria4" t) 0%float).
Proof.
  intros Hsm Ht. cbv zeta.
  assert (Hcell : cell (state_of (flag_d06 lib df)) "criteria1" t
                  = fround 3 (fdiv (at_ (values c_sm) t)
                                   (at_ (values c_sm) (t - 1)))).
  { unfold cell. rewrite (flag_d06_criteria1 lib df c_sm Hsm).
    by rewrite criteria1_at, lag_one. }
  split; [exact Hcell|].
  intros [c_d2 Hd2]. rewrite (spike_cell lib df c_sm c_d2 t Hsm Hd2).
  by rewrite Hcell.
Qed.

Lemma criteria1_is_ratio_to_previous_witness :
  let df := table ratios [("deriv2", dry 4)] in
  let df' := state_of (flag_d06 reference df) in
  columns df !! "soil_moisture" = Some (FloatCol ratios)
  ∧ (1 ≤ 1)%nat
  ∧ cell df' "criteria1" 1 = 0.501%float
  ∧ cell df' "criteria1" 3 = 1.15%float
  ∧ fgt (cell df' "criteria1" 3) 1.15%float = false.
Proof.
  cbv zeta.
  set (df := table ratios [("deriv2", dry 4)]).
  assert (Hsm : columns df !! "soil_moisture" = Some (FloatCol ratios))
    by (vm_compute; reflexivity).
  assert (H1 : (1 ≤ 1)%nat) by lia.
  assert (H3 : (1 ≤ 3)%nat) by lia.
  destruct (criteria1_is_ratio_to_previous reference df (FloatCol ratios) 1
              Hsm H1) as [Ha _].
  destruct (criteria1_is_ratio_to_previous reference df (FloatCol ratios) 3
              Hsm H3) as [Hb _].
  split; [exact Hsm|]. split; [exact H1|].
  split; [exact Ha|]. split; [exact Hb|].
  rewrite Hb. vm_compute. reflexivity.
Defined.

(* C3 as stated fails: at hour 2 of the rising series the hour before is 1
   and the hour after is 7, yet criteria1 is 3 / 1 and not 7 / 1. *)
Lemma criteria1_is_not_next_over_previous :
  let df' := state_of (flag_d06 reference (table rising [("deriv2", dry 5)])) in
  at_ rising 1 = 1%float
  ∧ at_ rising 2 = 3%float
  ∧ at_ rising 3 = 7%float
  ∧ fround 3 (fdiv 7%float 1%float) = 7%float
  ∧ cell df' "criteria1" 2 = 3%float
  ∧ feq (cell df' "criteria1" 2) (fround 3 (fdiv 7%float 1%float)) = false.
Proof. repeat split; vm_compute; reflexivity. Qed.

(** C4, as the code has it: at every row t >= 1, criteria2[t] equals the
    absolute ratio of deriv2[t-1] to deriv2[t+1], divided and rounded to 3
    decimals in binary64 as numpy does, and the symmetry test
    (df.criteria2 > 0.8) & (df.criteria2 < 1.2), the second operand of the
    spike column, holds at t exactly when this value lies strictly
    between 0.8 and 1.2. *)
Theorem criteria2_is_ratio_before_to_after (lib : Library) (df : DataFrame)
    (c_sm c_d2 : column) (t : nat) :
  columns df !! "soil_moisture" = Some c_sm →
  columns df !! "deriv2" = Some c_d2 →
  (1 ≤ t)%nat →
  let df' := state_of (flag_d06 lib df) in
  let r := fround 3 (fabs (fdiv (at_ (values c_d2) (t - 1))
                                (at_ (values c_d2) (t + 1)))) in
  cell df' "criteria2" t = r
  ∧ fgt (cell df' "spike" t) 0%float
    = (abrupt_change (cell df' "criteria1" t) || spike_2h_at df' t)
      && (fgt r 0.8%float && flt r 1.2%float)
      && flt (cell df' "criteria3" t) 1%float
      && fgt (cell df' "criteria4" t) 0%float.
Proof.
  intros Hsm Hd2 Ht. cbv zeta.
  assert (Hcell : cell (state_of (flag_d06 lib df)) "criteria2" t
                  = fround 3 (fabs (fdiv (at_ (values c_d2) (t - 1))
                                         (at_ (values c_d2) (t + 1))))).
  { unfold cell. rewrite (flag_d06_run lib df c_sm c_d2 Hsm Hd2).
    cbn [state_of columns].
    destruct (d06_cells lib (values c_sm) (values c_d2) (columns df))
      as (_ & -> & _ & _).
    by rewrite criteria2_at, lag_one. }
  split; [exact Hcell|].
  rewrite (spike_cell lib df c_sm c_d2 t Hsm Hd2).
  by rewrite Hcell.
Qed.

Lemma criteria2_is_ratio_before_to_after_witness :
  let df := table (dry 4) [("deriv2", curves)] in
  let df' := state_of (flag_d06 reference df) in
  columns df !! "soil_moisture" = Some (FloatCol (dry 4))
  ∧ columns df !! "deriv2" = Some (FloatCol curves)
  ∧ (1 ≤ 1)%nat
  ∧ cell df' "criteria2" 1 = 1.2%float
  ∧ flt (cell df' "criteria2" 1) 1.2%float = false
  ∧ cell df' "criteria2" 2 = 0.501%float.
Proof.
  cbv zeta.
  set (df := table (dry 4) [("deriv2", curves)]).
  assert (Hsm : columns df !! "soil_moisture" = Some (FloatCol (dry 4)))
    by (vm_compute; reflexivity).
  assert (Hd2 : columns df !! "deriv2" = Some (FloatCol curves))
    by (vm_compute; reflexivity).
  assert (H1 : (1 ≤ 1)%nat) by lia.
  assert (H2 : (1 ≤ 2)%nat) by lia.
  destruct (criteria2_is_ratio_before_to_after reference df (FloatCol (dry 4))
              (FloatCol curves) 1 Hsm Hd2 H1) as [Ha _].
  destruct (criteria2_is_ratio_before_to_after reference df (FloatCol (dry 4))
              (FloatCol curves) 2 Hsm Hd2 H2) as [Hb _].
  split; [exact Hsm|]. split; [exact Hd2|]. split; [exact H1|].
  split; [exact Ha|]. split; [rewrite Ha; vm_compute; reflexivity|].
  exact Hb.
Defined.

(* C4 as stated fails: with deriv2 = 5 before hour 2 and 4 after it,
   criteria2 is |5 / 4| = 1.25 and the symmetry test does not pass, while
   the ratio of the claim, |4 / 5| = 0.8, lies in [0.8, 1.2]; and where
   criteria2 is 0.8 exactly, the test does not pass either. *)
Lemma criteria2_is_not_after_over_before :
  let df' := state_of (flag_d06 reference (table (dry 5) [("deriv2", bends)])) in
  let edge := state_of (flag_d06 reference (table (dry 5) [("deriv2", level)])) in
  (at_ bends 1 = 5%float
   ∧ at_ bends 3 = 4%float
   ∧ fround 3 (fabs (fdiv 4%float 5%float)) = 0.8%float
   ∧ cell df' "criteria2" 2 = 1.25%float
   ∧ symmetric (cell df' "criteria2" 2) = false)
  ∧ (at_ level 1 = 4%float
     ∧ at_ level 3 = 5%float
     ∧ cell edge "criteria2" 2 = 0.8%float
     ∧ symmetric (cell edge "criteria2" 2) = false).
Proof. repeat split; vm_compute; reflexivity. Qed.

(* ===================================================================== *)
(* 19. The general statements on example tables                          *)
(* ===================================================================== *)

Lemma detectors_only_add_codes_witness :
  let df := state_of (apply_savgol reference
                        (table plateau [("precipitation", dry 25)])) in
  let df' := state_of (run reference D06 df) in
  let df'' := state_of (flagit reference df) in
  ((∀ name, name ∈ raw_fields → columns df' !! name = columns df !! name)
   ∧ grows (qflag df) (qflag df'))
  ∧ ((∀ name, name ∈ raw_fields → columns df'' !! name = columns df !! name)
     ∧ grows (qflag df) (qflag df'')).
Proof.
  exact (detectors_only_add_codes reference D06
           (state_of (apply_savgol reference
                        (table plateau [("precipitation", dry 25)])))).
Defined.

Lemma flag_c03_zero_is_absent_witness :
  let df := table jump [] in
  truthy 12%float = true
  ∧ columns df !! "soil_moisture" = Some (FloatCol jump)
  ∧ qflag df !! 24%nat = Some ∅
  ∧ qflag df !! 25%nat = Some ∅
  ∧ flag_c03 (Some 0%float) df = Return () df
  ∧ flag_c03 (Some (-0)%float) df = Return () df
  ∧ qflag (state_of (flag_c03 (Some 12%float) df)) !! 24%nat = Some ∅
  ∧ qflag (state_of (flag_c03 (Some 12%float) df)) !! 25%nat = Some (∅ ∪ {[3]}).
Proof.
  cbv zeta.
  assert (Hh : truthy 12%float = true) by reflexivity.
  assert (Hsm : columns (table jump []) !! "soil_moisture" = Some (FloatCol jump))
    by (vm_compute; reflexivity).
  assert (H24 : qflag (table jump []) !! 24%nat = Some ∅)
    by (vm_compute; reflexivity).
  assert (H25 : qflag (table jump []) !! 25%nat = Some ∅)
    by (vm_compute; reflexivity).
  repeat (split; [assumption|]).
  destruct (flag_c03_zero_is_absent (table jump [])) as (Hzero & _ & Hact).
  split; [exact (Hzero 0%float eq_refl)|].
  split; [exact (Hzero (-0)%float eq_refl)|].
  destruct (Hact 12%float (FloatCol jump) Hh Hsm) as [_ Hrows].
  split; [exact (Hrows 24%nat ∅ H24)|exact (Hrows 25%nat ∅ H25)].
Defined.
